(** * spectacle-ocr-screenshot: a shallow embedding of [main.cpp]

    The program is sequential glue around external services: the
    [spectacle] command, Qt widgets and dialogs, ZXing and Tesseract.
    Each external service is a field of a [World] record (an oracle);
    every call the program makes to one of them is appended to a trace
    of [Event]s kept next to the widget state.  The program itself is
    written in ExtLib's state monad over that state. *)

From Stdlib Require Import String Ascii List ZArith Bool Lia.
From ExtLib Require Import Structures.Monad Structures.MonadState.
From ExtLib Require Import Data.Monads.StateMonad.
Import ListNotations.
Import MonadNotation.
Local Open Scope monad_scope.
Local Open Scope string_scope.

(** ** Strings *)

(** [QString::isEmpty]. *)
Definition isEmpty (s : string) : bool :=
  match s with
  | EmptyString => true
  | String _ _ => false
  end.

(** The double quote and the line feed, which Rocq string literals
    cannot hold directly. *)
Definition dq : string := String (ascii_of_nat 34) EmptyString.
Definition nl : string := String (ascii_of_nat 10) EmptyString.

(** [QString::toHtmlEscaped] (Qt): the four HTML metacharacters become
    entities, every other character is copied. *)
Definition lt_char : ascii := ascii_of_nat 60.
Definition gt_char : ascii := ascii_of_nat 62.
Definition amp_char : ascii := ascii_of_nat 38.
Definition dq_char : ascii := ascii_of_nat 34.

Definition escape_char (c : ascii) : string :=
  if Ascii.eqb c lt_char then "&lt;"
  else if Ascii.eqb c gt_char then "&gt;"
  else if Ascii.eqb c amp_char then "&amp;"
  else if Ascii.eqb c dq_char then "&quot;"
  else String c EmptyString.

Fixpoint toHtmlEscaped (s : string) : string :=
  match s with
  | EmptyString => EmptyString
  | String c rest => escape_char c ++ toHtmlEscaped rest
  end.

(** ** External data *)

Inductive QImageFormat :=
| Format_RGB32
| Format_ARGB32
| Format_Other (code : nat).

Definition QImageFormat_eqb (a b : QImageFormat) : bool :=
  match a, b with
  | Format_RGB32, Format_RGB32 => true
  | Format_ARGB32, Format_ARGB32 => true
  | Format_Other m, Format_Other n => Nat.eqb m n
  | _, _ => false
  end.

Record QImage := {
  img_format : QImageFormat;
  img_width : Z;
  img_height : Z;
  img_bytesPerLine : Z;
  img_bits : list Z
}.

Inductive BarcodeFormat := QRCode.
Inductive ImageFormat := ARGB.

Record ReaderOptions := {
  formats : BarcodeFormat;
  tryHarder : bool;
  tryRotate : bool
}.

Record ImageView := {
  iv_data : list Z;
  iv_width : Z;
  iv_height : Z;
  iv_format : ImageFormat;
  iv_rowStride : Z
}.

(** Leptonica's decoded raster, opaque to the program. *)
Definition Pix := list Z.

Inductive MessageBoxKind := Critical | Warning.

(** ** Trace of external calls *)

Inductive Event :=
| EvExecute (program : string) (args : list string)
| EvImageLoad (path : string)
| EvReadBarcode (view : ImageView) (options : ReaderOptions)
| EvTessInit (language : string)
| EvPixRead (path : string)
| EvTessGetUTF8Text
| EvPixDestroy
| EvTessEnd
| EvClipboardSetText (text : string)
| EvGetSaveFileName (caption dir filter : string)
| EvFileOpen (path : string)
| EvFileWrite (path content : string)
| EvFileCopy (src dst : string)
| EvOpenUrl (path : string)
| EvMessageBox (kind : MessageBoxKind) (title text : string)
| EvWindowShow
| EvAppExec.

(** The trace is kept newest first. *)
Definition Trace := list Event.

(** ** The world: answers of the external services

    Services that the program may call several times in one run get
    the trace so far as an argument, so that two calls may answer
    differently. *)
Record World := {
  tempDir : string;                                  (* QDir::tempPath() *)
  homeDir : string;                                  (* QDir::homePath() *)
  execute : Trace -> string -> list string -> Z;     (* QProcess::execute *)
  loadImage : string -> option QImage;               (* QImage(path); None: isNull() *)
  convertToFormat : QImage -> QImageFormat -> QImage;
  ReadBarcode : ImageView -> ReaderOptions -> option string;
                                                     (* None: !isValid() *)
  tessInit : string -> Z;                            (* TessBaseAPI::Init *)
  pixRead : string -> option Pix;                    (* None: null pointer *)
  GetUTF8Text : string -> Pix -> string;
  currentDateTime : Trace -> string -> string;       (* now, in a format *)
  getSaveFileName : Trace -> string -> string -> string -> string;
  fileOpen : Trace -> string -> bool;                (* QFile::open for writing *)
  fileCopy : Trace -> string -> string -> bool;      (* QFile::copy *)
  openUrl : Trace -> string -> bool;                 (* QDesktopServices::openUrl *)
  eventLoopExit : Trace -> Z;                        (* what app.exec() returns *)
  mightBeRichText : string -> bool;                  (* Qt::mightBeRichText *)
  htmlToPlainText : string -> string   (* toPlainText() of a text set as HTML *)
}.

(** ** Widget state *)

Record Ui := {
  windowTitle : string;
  textEdit : string;      (* contents of the QTextEdit *)
  label : string;         (* text of the QLabel *)
  visible : bool;         (* has window.show() been called *)
  trace : Trace
}.

(** The widgets as [main] builds them, before the capture. *)
Definition ui_init : Ui :=
  {| windowTitle := EmptyString; textEdit := EmptyString;
     label := EmptyString; visible := false; trace := [] |}.

Definition M := state Ui.

Definition emit (e : Event) : M unit :=
  u <- get ;;
  put {| windowTitle := windowTitle u; textEdit := textEdit u;
         label := label u; visible := visible u; trace := e :: trace u |}.

Definition history : M Trace :=
  u <- get ;; ret (trace u).

Definition window_setWindowTitle (s : string) : M unit :=
  u <- get ;;
  put {| windowTitle := s; textEdit := textEdit u;
         label := label u; visible := visible u; trace := trace u |}.

(** What [toPlainText] hands back after [QTextEdit::setText]: Qt
    guesses the format with [Qt::mightBeRichText], which is never true
    of an empty string; a text taken for rich text is set as HTML and
    reads back as the plain text of the document built from it, any
    other text is set as plain text and reads back as it is. *)
Definition shownText (w : World) (s : string) : string :=
  if negb (isEmpty s) && mightBeRichText w s then htmlToPlainText w s else s.

Arguments shownText w !s /.

(** [QTextEdit::setText]. *)
Definition textEdit_setText (w : World) (s : string) : M unit :=
  u <- get ;;
  put {| windowTitle := windowTitle u; textEdit := shownText w s;
         label := label u; visible := visible u; trace := trace u |}.

(** The user typing in the text area: the contents become what was
    typed. *)
Definition textEdit_userInput (contents : string) : M unit :=
  u <- get ;;
  put {| windowTitle := windowTitle u; textEdit := contents;
         label := label u; visible := visible u; trace := trace u |}.

Definition textEdit_toPlainText : M string :=
  u <- get ;; ret (textEdit u).

Definition label_setText (s : string) : M unit :=
  u <- get ;;
  put {| windowTitle := windowTitle u; textEdit := textEdit u;
         label := s; visible := visible u; trace := trace u |}.

Definition window_show : M unit :=
  u <- get ;;
  put {| windowTitle := windowTitle u; textEdit := textEdit u;
         label := label u; visible := true; trace := trace u |} ;;
  emit EvWindowShow.

Definition QMessageBox (kind : MessageBoxKind) (title text : string) : M unit :=
  emit (EvMessageBox kind title text).

(** ** The three workers *)

(** [takeScreenshot]: run spectacle, succeed on exit code 0. *)
Definition takeScreenshot (w : World) (outputPath : string) : M bool :=
  let args := ["-b"; "-r"; "-n"; "-o"; outputPath] in
  h <- history ;;
  emit (EvExecute "spectacle" args) ;;
  let exitCode := execute w h "spectacle" args in
  ret (Z.eqb exitCode 0).

Record OcrResult := {
  text : string;
  success : bool;
  errorMessage : string;
  isQrCode : bool
}.

(** [detectQrCode]. *)
Definition detectQrCode (w : World) (imagePath : string) : M OcrResult :=
  emit (EvImageLoad imagePath) ;;
  match loadImage w imagePath with
  | None =>
      ret {| text := EmptyString; success := false;
             errorMessage := "Failed to load image for QR detection";
             isQrCode := false |}
  | Some loaded =>
      let image :=
        if negb (QImageFormat_eqb (img_format loaded) Format_RGB32)
           && negb (QImageFormat_eqb (img_format loaded) Format_ARGB32)
        then convertToFormat w loaded Format_RGB32
        else loaded in
      let options :=
        {| formats := QRCode; tryHarder := true; tryRotate := true |} in
      let imageView :=
        {| iv_data := img_bits image; iv_width := img_width image;
           iv_height := img_height image; iv_format := ARGB;
           iv_rowStride := img_bytesPerLine image |} in
      emit (EvReadBarcode imageView options) ;;
      match ReadBarcode w imageView options with
      | Some decoded =>
          ret {| text := decoded; success := true;
                 errorMessage := EmptyString; isQrCode := true |}
      | None =>
          ret {| text := EmptyString; success := false;
                 errorMessage := "Failed to detect valid QR code";
                 isQrCode := false |}
      end
  end.

(** [extractText]: a non-zero answer of [Init] is a failure. *)
Definition extractText (w : World) (imagePath language : string) : M OcrResult :=
  emit (EvTessInit language) ;;
  if negb (Z.eqb (tessInit w language) 0) then
    ret {| text := EmptyString; success := false;
           errorMessage := "Error initializing Tesseract OCR for language: " ++ language;
           isQrCode := false |}
  else
    emit (EvPixRead imagePath) ;;
    match pixRead w imagePath with
    | None =>
        emit EvTessEnd ;;
        ret {| text := EmptyString; success := false;
               errorMessage := "Failed to load image"; isQrCode := false |}
    | Some image =>
        emit EvTessGetUTF8Text ;;
        let outText := GetUTF8Text w language image in
        emit EvPixDestroy ;;
        emit EvTessEnd ;;
        ret {| text := outText; success := true;
               errorMessage := EmptyString; isQrCode := false |}
    end.

(** ** Command line *)

Record QCommandLineOption := {
  names : list string;
  defaultValue : option string
}.

Definition langOption : QCommandLineOption :=
  {| names := ["lang"]; defaultValue := Some "eng" |}.
Definition disable_qr : QCommandLineOption :=
  {| names := ["disable-qr"]; defaultValue := None |}.
Definition webBrowserOption : QCommandLineOption :=
  {| names := ["web"; "browser"]; defaultValue := None |}.

(** The parser after [process]: the options met on the command line,
    in order, each with its value (empty for a flag). *)
Definition QCommandLineParser := list (string * string).

Definition names_option (opt : QCommandLineOption) (nv : string * string) : bool :=
  existsb (String.eqb (fst nv)) (names opt).

(** [QCommandLineParser::isSet]. *)
Definition isSet (parser : QCommandLineParser) (opt : QCommandLineOption) : bool :=
  existsb (names_option opt) parser.

(** [QCommandLineParser::values]: the values met, or the defaults. *)
Definition values (parser : QCommandLineParser) (opt : QCommandLineOption) : list string :=
  match map snd (filter (names_option opt) parser) with
  | [] => match defaultValue opt with
          | Some d => [d]
          | None => []
          end
  | found => found
  end.

(** [QCommandLineParser::value]: the last of [values], or empty. *)
Definition value (parser : QCommandLineParser) (opt : QCommandLineOption) : string :=
  last (values parser opt) EmptyString.

(** ** The HTML report

    The source writes the same document at three places; they differ
    only in the expression that supplies the text. *)

Definition lines (l : list string) : string :=
  fold_right (fun s acc => s ++ nl ++ acc) EmptyString l.

Definition html_head : string :=
  lines [
     "<!DOCTYPE html>";
     "<html lang=" ++ dq ++ "en" ++ dq ++ ">";
     "<head>";
     "    <meta charset=" ++ dq ++ "UTF-8" ++ dq ++ ">";
     "    <meta name=" ++ dq ++ "viewport" ++ dq ++ " content=" ++ dq ++ "width=device-width, initial-scale=1.0" ++ dq ++ ">";
     "    <title>OCR Results</title>";
     "    <style>";
     "        body {";
     "            font-family: Arial, sans-serif;";
     "            margin: 20px;";
     "            line-height: 1.6;";
     "            background-color: #f4f4f4;";
     "        }";
     "        .container {";
     "            max-width: 800px;";
     "            margin: 0 auto;";
     "            background-color: white;";
     "            padding: 20px;";
     "            border-radius: 8px;";
     "            box-shadow: 0 2px 4px rgba(0,0,0,0.1);";
     "        }";
     "        h1 {";
     "            color: #333;";
     "        }";
     "        .timestamp {";
     "            color: #666;";
     "            font-size: 0.9em;";
     "        }";
     "        .content {";
     "            width: 100%;";
     "            min-height: 300px;";
     "            padding: 15px;";
     "            border: 2px solid #007bff;";
     "            border-radius: 4px;";
     "            font-family: 'Courier New', monospace;";
     "            font-size: 14px;";
     "            box-sizing: border-box;";
     "            resize: vertical;";
     "        }";
     "        .button-group {";
     "            margin-top: 15px;";
     "            display: flex;";
     "            gap: 10px;";
     "        }";
     "        button {";
     "            padding: 10px 20px;";
     "            background-color: #007bff;";
     "            color: white;";
     "            border: none;";
     "            border-radius: 4px;";
     "            cursor: pointer;";
     "            font-size: 14px;";
     "        }";
     "        button:hover {";
     "            background-color: #0056b3;";
     "        }";
     "    </style>";
     "</head>";
     "<body>";
     "    <div class=" ++ dq ++ "container" ++ dq ++ ">";
     "        <h1>OCR Results</h1>"
  ] ++ "        <p class=" ++ dq ++ "timestamp" ++ dq ++ ">Generated: ".

Definition html_textarea_open : string :=
  "</p>" ++ nl ++
  "        <textarea id=" ++ dq ++ "content" ++ dq ++ " class=" ++ dq ++ "content" ++ dq ++ ">".

Definition html_tail : string :=
  "</textarea>" ++ nl ++
  lines [
     "        <div class=" ++ dq ++ "button-group" ++ dq ++ ">";
     "            <button onclick=" ++ dq ++ "copyText()" ++ dq ++ ">Copy to Clipboard</button>";
     "            <button onclick=" ++ dq ++ "downloadText()" ++ dq ++ ">Download as TXT</button>";
     "        </div>";
     "    </div>";
     "    <script>";
     "        function copyText() {";
     "            const textarea = document.getElementById('content');";
     "            textarea.select();";
     "            document.execCommand('copy');";
     "            alert('Text copied to clipboard!');";
     "        }";
     "        function downloadText() {";
     "            const textarea = document.getElementById('content');";
     "            const text = textarea.value;";
     "            const element = document.createElement('a');";
     "            element.setAttribute('href', 'data:text/plain;charset=utf-8,' + encodeURIComponent(text));";
     "            element.setAttribute('download', 'ocr_result.txt');";
     "            element.style.display = 'none';";
     "            document.body.appendChild(element);";
     "            element.click();";
     "            document.body.removeChild(element);";
     "        }";
     "    </script>";
     "</body>";
     "</html>"
  ].

(** The document streamed to the file: [generated] is the time stamp
    line, [body] what goes between the textarea tags. *)
Definition html_document (generated body : string) : string :=
  html_head ++ generated ++ html_textarea_open ++ body ++ html_tail.

(** [QDir::tempPath() + "/ocr_result_" + timestamp + ".html"]. *)
Definition htmlPath_at (w : World) (h : Trace) : string :=
  tempDir w ++ "/ocr_result_" ++ currentDateTime w h "yyyyMMdd_hhmmss" ++ ".html".

(** [tempPath] of [main]: where the screenshot is written. *)
Definition tempPath (w : World) : string :=
  tempDir w ++ "/screenshot.png".

(** ** Button handlers (the four lambdas connected in [main]) *)

Definition copyButton_clicked (w : World) : M unit :=
  plain <- textEdit_toPlainText ;;
  if negb (isEmpty plain) then
    emit (EvClipboardSetText plain) ;;
    label_setText "Text copied to clipboard"
  else
    label_setText "No text to copy".

Definition saveButton_clicked (w : World) : M unit :=
  plain <- textEdit_toPlainText ;;
  if negb (isEmpty plain) then
    h <- history ;;
    emit (EvGetSaveFileName "Save OCR Text" (homeDir w)
            "Text Files (*.txt);;All Files (*)") ;;
    let fileName :=
      getSaveFileName w h "Save OCR Text" (homeDir w)
        "Text Files (*.txt);;All Files (*)" in
    if negb (isEmpty fileName) then
      h1 <- history ;;
      emit (EvFileOpen fileName) ;;
      if fileOpen w h1 fileName then
        emit (EvFileWrite fileName plain) ;;
        label_setText "Text saved to file"
      else
        label_setText "Failed to save file" ;;
        QMessageBox Critical "Error" "Failed to save the file"
    else ret tt
  else
    label_setText "No text to save".

Definition saveImageButton_clicked (w : World) : M unit :=
  h <- history ;;
  let timestamp := currentDateTime w h "yyyyMMdd_hhmmss" in
  let defaultImageName := homeDir w ++ "/Screenshot_" ++ timestamp in
  emit (EvGetSaveFileName "Save Screenshot" defaultImageName
          "Image Files (*.png);;All Files (*)") ;;
  let imageFileName :=
    getSaveFileName w h "Save Screenshot" defaultImageName
      "Image Files (*.png);;All Files (*)" in
  if negb (isEmpty imageFileName) then
    h1 <- history ;;
    emit (EvFileCopy (tempPath w) imageFileName) ;;
    if fileCopy w h1 (tempPath w) imageFileName then
      label_setText "Screenshot saved successfully"
    else
      label_setText "Failed to save screenshot" ;;
      QMessageBox Critical "Error" "Failed to save the screenshot file"
  else ret tt.

Definition browserButton_clicked (w : World) : M unit :=
  plain <- textEdit_toPlainText ;;
  if negb (isEmpty plain) then
    h <- history ;;
    let htmlPath := htmlPath_at w h in
    emit (EvFileOpen htmlPath) ;;
    if fileOpen w h htmlPath then
      h1 <- history ;;
      let generated := currentDateTime w h1 "yyyy-MM-dd hh:mm:ss" in
      emit (EvFileWrite htmlPath (html_document generated (toHtmlEscaped plain))) ;;
      h2 <- history ;;
      emit (EvOpenUrl htmlPath) ;;
      if openUrl w h2 htmlPath then
        label_setText "OCR results opened in web browser"
      else
        label_setText "Failed to open web browser" ;;
        QMessageBox Warning "Warning" "Could not open default web browser"
    else
      label_setText "Failed to create HTML file" ;;
      QMessageBox Critical "Error" "Failed to create temporary HTML file"
  else
    label_setText "No text to display".

(** ** The GUI event loop

    What the user does while the loop runs is an input: a list of
    clicks and edits of the text area, ended by closing the window. *)

Inductive UserAction :=
| ClickCopy
| ClickSave
| ClickSaveImage
| ClickBrowser
| EditText (contents : string).

Definition dispatch (w : World) (a : UserAction) : M unit :=
  match a with
  | ClickCopy => copyButton_clicked w
  | ClickSave => saveButton_clicked w
  | ClickSaveImage => saveImageButton_clicked w
  | ClickBrowser => browserButton_clicked w
  | EditText contents => textEdit_userInput contents
  end.

Fixpoint event_loop (w : World) (user : list UserAction) : M unit :=
  match user with
  | [] => ret tt
  | a :: rest => dispatch w a ;; event_loop w rest
  end.

(** [app.exec()]. *)
Definition app_exec (w : World) (user : list UserAction) : M Z :=
  emit EvAppExec ;;
  event_loop w user ;;
  h <- history ;;
  ret (eventLoopExit w h).

(** ** [main] *)

(** The automatic export written twice in [main] (after a decoded QR
    code and after a successful OCR): no [else] branch, and the answer
    of [openUrl] is dropped. *)
Definition auto_export (w : World) (result : OcrResult) : M unit :=
  h <- history ;;
  let htmlPath := htmlPath_at w h in
  emit (EvFileOpen htmlPath) ;;
  if fileOpen w h htmlPath then
    h1 <- history ;;
    let generated := currentDateTime w h1 "yyyy-MM-dd hh:mm:ss" in
    emit (EvFileWrite htmlPath (html_document generated (toHtmlEscaped (text result)))) ;;
    emit (EvOpenUrl htmlPath)
  else ret tt.

(** Lines 460-573 and 582: the OCR stage, reached when QR detection is
    disabled or did not decode. *)
Definition ocr_stage (w : World) (language : string) (openInBrowser : bool)
    (user : list UserAction) : M Z :=
  result <- extractText w (tempPath w) language ;;
  if negb (success result) then
    textEdit_setText w EmptyString ;;
    label_setText (errorMessage result) ;;
    window_show ;;
    app_exec w user
  else
    textEdit_setText w (text result) ;;
    label_setText "Text extracted successfully." ;;
    if openInBrowser then
      auto_export w result ;;
      ret 0%Z
    else
      window_show ;;
      app_exec w user.

Definition main (w : World) (parser : QCommandLineParser)
    (user : list UserAction) : M Z :=
  let language := value parser langOption in
  let openInBrowser := isSet parser webBrowserOption in
  window_setWindowTitle ("Spectacle Screenshot OCR - Language: " ++ language) ;;
  captured <- takeScreenshot w (tempPath w) ;;
  if captured then
    if negb (isSet parser disable_qr) then
      result <- detectQrCode w (tempPath w) ;;
      if success result then
        textEdit_setText w (text result) ;;
        label_setText "QR code detected and decoded successfully" ;;
        if openInBrowser then
          auto_export w result ;;
          ret 0%Z
        else
          window_show ;;
          app_exec w user
      else ocr_stage w language openInBrowser user
    else ocr_stage w language openInBrowser user
  else
    textEdit_setText w EmptyString ;;
    label_setText "Error occurred while taking screenshot" ;;
    window_show ;;
    QMessageBox Critical "Error" "Failed to launch Spectacle or take screenshot" ;;
    app_exec w user.

(** A whole run: [main] from the freshly built widgets. *)
Definition run (w : World) (parser : QCommandLineParser)
    (user : list UserAction) : Z * Ui :=
  runState (main w parser user) ui_init.

(** ** Vocabulary for the statements *)

(** The arguments [takeScreenshot] passes to spectacle, and its exit
    code when it is the first external call of the run. *)
Definition spectacle_args (w : World) : list string :=
  ["-b"; "-r"; "-n"; "-o"; tempPath w].

Definition capture_exit (w : World) : Z :=
  execute w [] "spectacle" (spectacle_args w).

(** What the two recognizers return on the captured image. *)
Definition qr_result (w : World) : OcrResult :=
  evalState (detectQrCode w (tempPath w)) ui_init.

Definition ocr_result (w : World) (language : string) : OcrResult :=
  evalState (extractText w (tempPath w) language) ui_init.

(** Recognition succeeds: the capture worked, and either the QR
    detector ran and decoded, or OCR succeeded. *)
Definition recognized (w : World) (parser : QCommandLineParser) : bool :=
  Z.eqb (capture_exit w) 0
  && ((negb (isSet parser disable_qr) && success (qr_result w))
      || success (ocr_result w (value parser langOption))).

(** The language strings of the OCR engine initialisations in a trace. *)
Fixpoint ocr_invocations (tr : Trace) : list string :=
  match tr with
  | [] => []
  | EvTessInit language :: rest => language :: ocr_invocations rest
  | _ :: rest => ocr_invocations rest
  end.

Definition is_alert (e : Event) : bool :=
  match e with
  | EvMessageBox _ _ _ => true
  | _ => false
  end.

(** The alerts raised in a trace. *)
Definition alerts (tr : Trace) : list Event := filter is_alert tr.

(** Events a button handler can cause. *)
Definition gui_event (e : Event) : bool :=
  match e with
  | EvClipboardSetText _ | EvGetSaveFileName _ _ _ | EvFileOpen _
  | EvFileWrite _ _ | EvFileCopy _ _ | EvOpenUrl _ | EvMessageBox _ _ _ => true
  | _ => false
  end.

(** [gui_extends tr tr']: [tr'] is [tr] with handler events added. *)
Inductive gui_extends (tr : Trace) : Trace -> Prop :=
| gui_same : gui_extends tr tr
| gui_more e tr' :
    gui_event e = true -> gui_extends tr tr' -> gui_extends tr (e :: tr').

(** What a handler may change: it adds handler events to the trace and
    leaves the window's visibility and title alone. *)
Definition handler_ok (m : M unit) : Prop :=
  forall u,
    gui_extends (trace u) (trace (snd (runState m u))) /\
    visible (snd (runState m u)) = visible u /\
    windowTitle (snd (runState m u)) = windowTitle u.

(** [contains s sub]: [sub] occurs in [s]. *)
Definition contains (s sub : string) : Prop :=
  exists before after, s = before ++ sub ++ after.

(** No raw [<] or [>], and every [&] opens one of the four entities. *)
Fixpoint html_safe (s : string) : bool :=
  match s with
  | EmptyString => true
  | String c rest =>
      if Ascii.eqb c lt_char || Ascii.eqb c gt_char then false
      else if Ascii.eqb c amp_char then
        (prefix "lt;" rest || prefix "gt;" rest
         || prefix "amp;" rest || prefix "quot;" rest)
        && html_safe rest
      else html_safe rest
  end.




(** The text of the outcome [main] settles on ([result.text]): the QR
    payload when the detector ran and decoded, the OCR text otherwise. *)
Definition recognized_text (w : World) (parser : QCommandLineParser) : string :=
  if negb (isSet parser disable_qr) && success (qr_result w)
  then text (qr_result w)
  else text (ocr_result w (value parser langOption)).

(** ** Sample worlds *)

(** Qt's answers on the strings of the examples: of these only
    [<b>hi</b>] opens with a tag Qt knows, and as HTML it reads [hi]. *)
Definition sample_mightBeRichText (s : string) : bool :=
  String.eqb s "<b>hi</b>".

Definition sample_htmlToPlainText (s : string) : string :=
  if String.eqb s "<b>hi</b>" then "hi" else s.

Definition sample_image : QImage :=
  {| img_format := Format_Other 3; img_width := 1; img_height := 1;
     img_bytesPerLine := 4; img_bits := [0; 0; 0; 255]%Z |}.

(** A world fixed by: spectacle's exit code, the image file as Qt
    loads it, what ZXing decodes, Tesseract's [Init] answer, whether
    files can be written, and the path the save dialog returns. *)
Definition sample_world (code : Z) (img : option QImage) (qr : option string)
    (init : Z) (writable : bool) (chosen : string) : World :=
  {| tempDir := "/tmp";
     homeDir := "/home/user";
     execute := fun _ _ _ => code;
     loadImage := fun _ => img;
     convertToFormat := fun i f =>
       {| img_format := f; img_width := img_width i;
          img_height := img_height i;
          img_bytesPerLine := img_bytesPerLine i; img_bits := img_bits i |};
     ReadBarcode := fun _ _ => qr;
     tessInit := fun _ => init;
     pixRead := fun _ => Some [255%Z];
     GetUTF8Text := fun _ _ => "3 > 2 && 1 < 2";
     currentDateTime := fun _ fmt =>
       if String.eqb fmt "yyyyMMdd_hhmmss" then "20240102_030405"
       else "2024-01-02 03:04:05";
     getSaveFileName := fun _ _ _ _ => chosen;
     fileOpen := fun _ _ => writable;
     fileCopy := fun _ _ _ => writable;
     openUrl := fun _ _ => true;
     eventLoopExit := fun _ => 0%Z;
     mightBeRichText := sample_mightBeRichText;
     htmlToPlainText := sample_htmlToPlainText |}.

(** Events that neither show the window nor start the event loop. *)
Definition windowless (e : Event) : bool :=
  match e with
  | EvWindowShow | EvAppExec => false
  | _ => true
  end.

Definition is_write (e : Event) : bool :=
  match e with
  | EvFileWrite _ _ => true
  | _ => false
  end.

(** Worlds for the examples: spectacle missing; a decodable QR code
    with writable files; the same with a read-only temporary directory;
    no QR code; no QR code and no language data. *)
Definition world_no_spectacle : World :=
  sample_world (-2) None None 0 true "/home/user/out.txt".
Definition world_qr : World :=
  sample_world 0 (Some sample_image) (Some "https://example.org/?a=1&b=2") 0 true
    "/home/user/out.txt".
Definition world_qr_readonly : World :=
  sample_world 0 (Some sample_image) (Some "https://example.org/?a=1&b=2") 0 false
    "/home/user/out.txt".
Definition world_text : World :=
  sample_world 0 (Some sample_image) None 0 true "/home/user/out.png".
Definition world_no_language : World :=
  sample_world 0 (Some sample_image) None (-1) true "/home/user/out.txt".
Definition world_no_image : World :=
  sample_world 0 None None 0 true "/home/user/out.txt".


(** The widgets holding some text, as after a successful run. *)
Definition ui_with (contents : string) : Ui :=
  {| windowTitle := "Spectacle Screenshot OCR - Language: eng";
     textEdit := contents; label := "Text extracted successfully.";
     visible := true; trace := [EvAppExec; EvWindowShow] |}.

(** ** Further vocabulary: what a trace holds *)

(** The programs started in a trace, with their arguments. *)
Fixpoint executions (tr : Trace) : list (string * list string) :=
  match tr with
  | [] => []
  | EvExecute program args :: rest => (program, args) :: executions rest
  | _ :: rest => executions rest
  end.

(** Calls the QR detector makes. *)
Definition is_qr_event (e : Event) : bool :=
  match e with
  | EvImageLoad _ | EvReadBarcode _ _ => true
  | _ => false
  end.

Definition is_image_load (e : Event) : bool :=
  match e with
  | EvImageLoad _ => true
  | _ => false
  end.






(** An event that touches the clipboard or the file system does so
    with something to put and somewhere to put it. *)
Definition nonempty_target (e : Event) : bool :=
  match e with
  | EvClipboardSetText contents => negb (isEmpty contents)
  | EvFileOpen path => negb (isEmpty path)
  | EvFileWrite path content => negb (isEmpty path) && negb (isEmpty content)
  | EvFileCopy src dst => negb (isEmpty src) && negb (isEmpty dst)
  | EvOpenUrl path => negb (isEmpty path)
  | _ => true
  end.

(** The text area after the user's actions: the last edit, if any. *)
Fixpoint last_edit (user : list UserAction) (contents : string) : string :=
  match user with
  | [] => contents
  | EditText edited :: rest => last_edit rest edited
  | _ :: rest => last_edit rest contents
  end.

(** A string without any of the four characters [toHtmlEscaped] rewrites. *)
Fixpoint html_plain (s : string) : bool :=
  match s with
  | EmptyString => true
  | String c rest =>
      negb (Ascii.eqb c lt_char || Ascii.eqb c gt_char
            || Ascii.eqb c amp_char || Ascii.eqb c dq_char)
      && html_plain rest
  end.

(** A world whose screenshot holds no code and no text: OCR succeeds
    with an empty result. *)
Definition world_blank : World :=
  {| tempDir := "/tmp";
     homeDir := "/home/user";
     execute := fun _ _ _ => 0%Z;
     loadImage := fun _ => Some sample_image;
     convertToFormat := fun i _ => i;
     ReadBarcode := fun _ _ => None;
     tessInit := fun _ => 0%Z;
     pixRead := fun _ => Some [255%Z];
     GetUTF8Text := fun _ _ => EmptyString;
     currentDateTime := fun _ fmt =>
       if String.eqb fmt "yyyyMMdd_hhmmss" then "20240102_030405"
       else "2024-01-02 03:04:05";
     getSaveFileName := fun _ _ _ _ => EmptyString;
     fileOpen := fun _ _ => true;
     fileCopy := fun _ _ _ => true;
     openUrl := fun _ _ => false;
     eventLoopExit := fun _ => 3%Z;
     mightBeRichText := sample_mightBeRichText;
     htmlToPlainText := sample_htmlToPlainText |}.

(** A world whose screenshot file Leptonica cannot read. *)
Definition world_unreadable : World :=
  {| tempDir := "/tmp";
     homeDir := "/home/user";
     execute := fun _ _ _ => 0%Z;
     loadImage := fun _ => None;
     convertToFormat := fun i _ => i;
     ReadBarcode := fun _ _ => None;
     tessInit := fun _ => 0%Z;
     pixRead := fun _ => None;
     GetUTF8Text := fun _ _ => EmptyString;
     currentDateTime := fun _ fmt => fmt;
     getSaveFileName := fun _ _ _ _ => EmptyString;
     fileOpen := fun _ _ => true;
     fileCopy := fun _ _ _ => true;
     openUrl := fun _ _ => true;
     eventLoopExit := fun _ => 0%Z;
     mightBeRichText := sample_mightBeRichText;
     htmlToPlainText := sample_htmlToPlainText |}.

(** * Proofs *)

Create HintDb gui.
#[local] Hint Constructors gui_extends : gui.

(** ** The event loop only adds handler events *)

Lemma gui_extends_trans (a b c : Trace) :
  gui_extends a b -> gui_extends b c -> gui_extends a c.
Proof. intros Hab Hbc; induction Hbc; auto with gui. Qed.

Lemma gui_extends_ocr (tr tr' : Trace) :
  gui_extends tr tr' -> ocr_invocations tr' = ocr_invocations tr.
Proof.
  induction 1 as [|e tr' He _ IH]; [reflexivity|].
  destruct e; try discriminate He; exact IH.
Qed.

Ltac run_cbn :=
  cbn -[String.append html_document html_head html_textarea_open html_tail
        htmlPath_at app_exec Z.eqb isSet value In].

Ltac split_ifs :=
  repeat match goal with
  | |- context [if ?c then _ else _] => destruct c; run_cbn
  end.

Lemma dispatch_ok (w : World) (a : UserAction) : handler_ok (dispatch w a).
Proof.
  intros u; destruct a; run_cbn; split_ifs;
    repeat split; auto 10 with gui.
Qed.

Lemma event_loop_ok (w : World) (user : list UserAction) :
  handler_ok (event_loop w user).
Proof.
  induction user as [|a rest IH]; intros u.
  - cbn; auto with gui.
  - cbn -[dispatch].
    destruct (dispatch_ok w a u) as (H1 & H2 & H3).
    destruct (runState (dispatch w a) u) as [[] u1]; cbn in *.
    destruct (IH u1) as (H4 & H5 & H6).
    repeat split; try congruence.
    eapply gui_extends_trans; eauto.
Qed.

(** [app.exec()] logs its start, runs the handlers and returns the
    loop's exit code. *)
Lemma app_exec_run (w : World) (user : list UserAction) (u : Ui) :
  exists u',
    runState (app_exec w user) u = (eventLoopExit w (trace u'), u') /\
    gui_extends (EvAppExec :: trace u) (trace u') /\
    visible u' = visible u.
Proof.
  unfold app_exec; cbn -[event_loop].
  set (u0 := {| windowTitle := windowTitle u; textEdit := textEdit u;
                label := label u; visible := visible u;
                trace := EvAppExec :: trace u |}).
  destruct (event_loop_ok w user u0) as (H1 & H2 & _).
  destruct (runState (event_loop w user) u0) as [[] u1]; cbn in *.
  exists u1; auto.
Qed.

Lemma app_exec_trace (w : World) (user : list UserAction) (u : Ui) :
  gui_extends (EvAppExec :: trace u) (trace (snd (runState (app_exec w user) u))).
Proof.
  destruct (app_exec_run w user u) as (u' & E & H & _).
  rewrite E; exact H.
Qed.

Lemma app_exec_visible (w : World) (user : list UserAction) (u : Ui) :
  visible (snd (runState (app_exec w user) u)) = visible u.
Proof.
  destruct (app_exec_run w user u) as (u' & E & _ & H).
  rewrite E; exact H.
Qed.

(** ** Command line *)

Lemma value_lang_default (parser : QCommandLineParser) :
  isSet parser langOption = false -> value parser langOption = "eng".
Proof.
  unfold isSet, value, values; intros H.
  assert (E : filter (names_option langOption) parser = []).
  { induction parser as [|nv rest IH]; [reflexivity|].
    cbn in H |- *. apply orb_false_iff in H as [H1 H2].
    rewrite H1; cbn; auto. }
  rewrite E; reflexivity.
Qed.

Lemma value_lang_last (parser : QCommandLineParser) (l : string) :
  value (parser ++ [("lang", l)])%list langOption = l.
Proof.
  unfold value, values.
  rewrite filter_app, map_app; cbn.
  destruct (map snd (filter (names_option langOption) parser)) as [|x xs] eqn:E.
  - reflexivity.
  - change (last ((x :: xs) ++ [l])%list EmptyString = l). apply last_last.
Qed.

(** ** Tactics for runs of [main] *)

(** Unfold [main] up to the answer of the capture. *)
Ltac enter_main w :=
  unfold run, main, ocr_stage; run_cbn;
  fold (spectacle_args w); fold (capture_exit w).

(** Case analysis on what the QR detector meets. *)
Ltac qr_cases w :=
  unfold qr_result; run_cbn;
  destruct (loadImage w (tempPath w)) as [img|]; run_cbn;
  [ match goal with
    | |- context [ReadBarcode w ?v ?o] =>
        destruct (ReadBarcode w v o) as [payload|]
    end; run_cbn
  | ].

(** Case analysis on what the OCR engine meets. *)
Ltac ocr_cases w L :=
  unfold ocr_result; run_cbn;
  destruct (Z.eqb (tessInit w L) 0) eqn:Einit; run_cbn;
  [ destruct (pixRead w (tempPath w)) as [pix|]; run_cbn | ].

(** Carry a fact about the trace or the window across the event loop. *)
Ltac through_loop w user :=
  match goal with
  | |- context [runState (app_exec w user) ?u] =>
      first [ rewrite (gui_extends_ocr _ _ (app_exec_trace w user u))
            | rewrite (app_exec_visible w user u) ]
  end.

Lemma contains_suffix (a b : string) : contains (a ++ b) b.
Proof.
  exists a, EmptyString.
  f_equal. induction b as [|c b IH]; cbn; [reflexivity | now rewrite <- IH].
Qed.

Lemma windowless_trace (tr : Trace) :
  forallb windowless tr = true ->
  ~ In EvWindowShow tr /\ ~ In EvAppExec tr.
Proof.
  induction tr as [|e tr IH]; cbn; [tauto|].
  intros H; apply andb_true_iff in H as [He Ht].
  destruct (IH Ht) as [I1 I2].
  split; intros [E|Hin]; try tauto; subst e; discriminate.
Qed.

(** ** Capture failure *)

(** C1: when the capture command exits non-zero (a missing tool makes
    [QProcess::execute] answer -2), [main] empties the text area, sets
    the error status, shows the window, raises the blocking error
    alert, and then runs the event loop from that state. *)
Theorem capture_failure_shows_error (w : World) (parser : QCommandLineParser)
    (user : list UserAction) :
  capture_exit w <> 0%Z ->
  exists u,
    run w parser user = runState (app_exec w user) u /\
    textEdit u = EmptyString /\
    label u = "Error occurred while taking screenshot" /\
    visible u = true /\
    trace u = [EvMessageBox Critical "Error"
                 "Failed to launch Spectacle or take screenshot";
               EvWindowShow;
               EvExecute "spectacle" (spectacle_args w)] /\
    gui_extends (EvAppExec :: trace u) (trace (snd (run w parser user))).
Proof.
  intros H. enter_main w.
  destruct (Z.eqb_spec (capture_exit w) 0) as [E|_]; [contradiction|].
  run_cbn.
  eexists; split; [reflexivity|].
  run_cbn; repeat split.
  match goal with
  | |- gui_extends _ (trace (snd (runState (app_exec w user) ?u))) =>
      exact (app_exec_trace w user u)
  end.
Qed.

Lemma capture_failure_witness :
  capture_exit world_no_spectacle <> 0%Z /\
  exists u,
    run world_no_spectacle [] [ClickCopy]
      = runState (app_exec world_no_spectacle [ClickCopy]) u /\
    textEdit u = EmptyString /\
    label u = "Error occurred while taking screenshot" /\
    visible u = true /\
    trace u = [EvMessageBox Critical "Error"
                 "Failed to launch Spectacle or take screenshot";
               EvWindowShow;
               EvExecute "spectacle" (spectacle_args world_no_spectacle)] /\
    gui_extends (EvAppExec :: trace u)
      (trace (snd (run world_no_spectacle [] [ClickCopy]))).
Proof.
  assert (H : capture_exit world_no_spectacle <> 0%Z)
    by (vm_compute; discriminate).
  split; [exact H|].
  exact (capture_failure_shows_error world_no_spectacle [] [ClickCopy] H).
Defined.

(** ** The QR path *)



(** ** The OCR path *)

(** C3: after a successful capture, if QR detection is disabled or does
    not decode, the OCR engine is initialised exactly once, with the
    value of the [lang] option: ["eng"] when the option is absent, the
    last value given otherwise. *)
Theorem ocr_invoked_once_with_language (w : World)
    (parser : QCommandLineParser) (user : list UserAction) :
  capture_exit w = 0%Z ->
  isSet parser disable_qr = true \/ success (qr_result w) = false ->
  ocr_invocations (trace (snd (run w parser user))) = [value parser langOption] /\
  (isSet parser langOption = false -> value parser langOption = "eng") /\
  (forall given l, parser = (given ++ [("lang", l)])%list ->
     value parser langOption = l).
Proof.
  intros Hc Hq.
  split; [|split; [apply value_lang_default
                  | intros given l ->; apply value_lang_last]].
  enter_main w. rewrite Hc, Z.eqb_refl. run_cbn.
  destruct (isSet parser disable_qr) eqn:Ed; run_cbn.
  - ocr_cases w (value parser langOption);
      destruct (isSet parser webBrowserOption); run_cbn; split_ifs;
      try through_loop w user; reflexivity.
  - destruct Hq as [Hq|Hq]; [discriminate|].
    revert Hq. qr_cases w; try discriminate; intros _;
      ocr_cases w (value parser langOption);
      destruct (isSet parser webBrowserOption); run_cbn; split_ifs;
      try through_loop w user; reflexivity.
Qed.

Lemma ocr_invoked_once_witness :
  capture_exit world_text = 0%Z /\
  (isSet [("lang", "eng+hin")] disable_qr = true
   \/ success (qr_result world_text) = false) /\
  ocr_invocations
    (trace (snd (run world_text [("lang", "eng+hin")] [ClickBrowser; ClickSave])))
    = ["eng+hin"].
Proof.
  assert (H1 : capture_exit world_text = 0%Z) by reflexivity.
  assert (H2 : isSet [("lang", "eng+hin")] disable_qr = true
               \/ success (qr_result world_text) = false)
    by (right; reflexivity).
  split; [exact H1|]. split; [exact H2|].
  exact (proj1 (ocr_invoked_once_with_language world_text [("lang", "eng+hin")]
                  [ClickBrowser; ClickSave] H1 H2)).
Defined.

(** C4: when the OCR engine cannot be initialised for the requested
    language, the recognition outcome is a failure whose message ends
    with that language, and the window is shown with an empty text area
    and that message as status. *)
Theorem ocr_init_failure_names_language (w : World)
    (parser : QCommandLineParser) (user : list UserAction) :
  capture_exit w = 0%Z ->
  isSet parser disable_qr = true \/ success (qr_result w) = false ->
  tessInit w (value parser langOption) <> 0%Z ->
  success (ocr_result w (value parser langOption)) = false /\
  errorMessage (ocr_result w (value parser langOption))
    = "Error initializing Tesseract OCR for language: " ++ value parser langOption /\
  exists u,
    run w parser user = runState (app_exec w user) u /\
    visible u = true /\
    textEdit u = EmptyString /\
    label u = errorMessage (ocr_result w (value parser langOption)) /\
    contains (label u) (value parser langOption).
Proof.
  intros Hc Hq Hi.
  apply Z.eqb_neq in Hi.
  assert (Hr : ocr_result w (value parser langOption) =
               {| text := EmptyString; success := false;
                  errorMessage := "Error initializing Tesseract OCR for language: "
                                  ++ value parser langOption;
                  isQrCode := false |}).
  { unfold ocr_result; run_cbn. rewrite Hi. reflexivity. }
  rewrite Hr; cbn [success errorMessage].
  split; [reflexivity|]. split; [reflexivity|].
  enter_main w. rewrite Hc, Z.eqb_refl. run_cbn.
  destruct (isSet parser disable_qr) eqn:Ed; run_cbn.
  - rewrite Hi; run_cbn.
    eexists; split; [reflexivity|]. cbn [visible textEdit label].
    repeat split. apply contains_suffix.
  - destruct Hq as [Hq|Hq]; [discriminate|].
    revert Hq. qr_cases w; try discriminate; intros _; rewrite Hi; run_cbn;
      (eexists; split; [reflexivity|]); cbn [visible textEdit label];
      repeat split; apply contains_suffix.
Qed.

Lemma ocr_init_failure_witness :
  capture_exit world_no_language = 0%Z /\
  (isSet [("lang", "xx")] disable_qr = true
   \/ success (qr_result world_no_language) = false) /\
  tessInit world_no_language (value [("lang", "xx")] langOption) <> 0%Z /\
  exists u,
    run world_no_language [("lang", "xx")] []
      = runState (app_exec world_no_language []) u /\
    visible u = true /\
    textEdit u = EmptyString /\
    label u = errorMessage (ocr_result world_no_language
                              (value [("lang", "xx")] langOption)) /\
    contains (label u) (value [("lang", "xx")] langOption).
Proof.
  assert (H1 : capture_exit world_no_language = 0%Z) by reflexivity.
  assert (H2 : isSet [("lang", "xx")] disable_qr = true
               \/ success (qr_result world_no_language) = false)
    by (right; reflexivity).
  assert (H3 : tessInit world_no_language (value [("lang", "xx")] langOption) <> 0%Z)
    by (vm_compute; discriminate).
  split; [exact H1|]. split; [exact H2|]. split; [exact H3|].
  exact (proj2 (proj2 (ocr_init_failure_names_language world_no_language
                         [("lang", "xx")] [] H1 H2 H3))).
Defined.

(** ** Automatic export *)

(** C7: with the automatic export flag set and recognition successful,
    [main] returns 0, the window is never shown and the event loop
    never entered; conversely a run that shows the window has the flag
    unset or recognition failed. *)
Theorem auto_export_exits_without_window (w : World)
    (parser : QCommandLineParser) (user : list UserAction) :
  (isSet parser webBrowserOption = true ->
   recognized w parser = true ->
   fst (run w parser user) = 0%Z /\
   visible (snd (run w parser user)) = false /\
   ~ In EvWindowShow (trace (snd (run w parser user))) /\
   ~ In EvAppExec (trace (snd (run w parser user)))) /\
  (In EvWindowShow (trace (snd (run w parser user))) ->
   isSet parser webBrowserOption = false \/ recognized w parser = false).
Proof.
  assert (Hmain :
    isSet parser webBrowserOption = true ->
    recognized w parser = true ->
    fst (run w parser user) = 0%Z /\
    visible (snd (run w parser user)) = false /\
    ~ In EvWindowShow (trace (snd (run w parser user))) /\
    ~ In EvAppExec (trace (snd (run w parser user)))).
  { intros Hweb Hrec. unfold recognized in Hrec.
    apply andb_true_iff in Hrec as [Hc Hrec]. apply Z.eqb_eq in Hc.
    revert Hrec. enter_main w. rewrite Hc, Hweb, Z.eqb_refl. run_cbn.
    destruct (isSet parser disable_qr) eqn:Ed; run_cbn.
    - ocr_cases w (value parser langOption); try discriminate; intros _;
        split_ifs; (split; [reflexivity|]); (split; [reflexivity|]);
        apply windowless_trace; reflexivity.
    - qr_cases w;
        [ intros _
        | ocr_cases w (value parser langOption); try discriminate; intros _
        | ocr_cases w (value parser langOption); try discriminate; intros _ ];
        split_ifs; (split; [reflexivity|]); (split; [reflexivity|]);
        apply windowless_trace; reflexivity. }
  split; [exact Hmain|].
  intros Hshow.
  destruct (isSet parser webBrowserOption) eqn:Hweb; [right|left; reflexivity].
  destruct (recognized w parser) eqn:Hrec; [|reflexivity].
  destruct (Hmain eq_refl eq_refl) as (_ & _ & Hn & _). contradiction.
Qed.

Lemma auto_export_witness :
  isSet [("web", EmptyString)] webBrowserOption = true /\
  recognized world_text [("web", EmptyString)] = true /\
  fst (run world_text [("web", EmptyString)] [ClickCopy]) = 0%Z /\
  visible (snd (run world_text [("web", EmptyString)] [ClickCopy])) = false /\
  ~ In EvWindowShow (trace (snd (run world_text [("web", EmptyString)] [ClickCopy]))) /\
  ~ In EvAppExec (trace (snd (run world_text [("web", EmptyString)] [ClickCopy]))).
Proof.
  assert (H1 : isSet [("web", EmptyString)] webBrowserOption = true) by reflexivity.
  assert (H2 : recognized world_text [("web", EmptyString)] = true) by reflexivity.
  split; [exact H1|]. split; [exact H2|].
  exact (proj1 (auto_export_exits_without_window world_text
                  [("web", EmptyString)] [ClickCopy]) H1 H2).
Defined.

(** ** HTML escaping *)

Lemma string_app_assoc (a b c : string) : (a ++ b) ++ c = a ++ (b ++ c).
Proof. induction a as [|x a IH]; cbn; [reflexivity | now rewrite IH]. Qed.

Lemma toHtmlEscaped_app (a b : string) :
  toHtmlEscaped (a ++ b) = toHtmlEscaped a ++ toHtmlEscaped b.
Proof.
  induction a as [|x a IH]; cbn [toHtmlEscaped String.append]; [reflexivity|].
  now rewrite IH, string_app_assoc.
Qed.

Lemma prefix_empty (s : string) : prefix EmptyString s = true.
Proof. destruct s; reflexivity. Qed.

Lemma toHtmlEscaped_safe (t : string) : html_safe (toHtmlEscaped t) = true.
Proof.
  induction t as [|c t IH]; [reflexivity|].
  cbn [toHtmlEscaped]; unfold escape_char.
  destruct (Ascii.eqb c lt_char) eqn:E1;
    [cbn; rewrite prefix_empty; exact IH|].
  destruct (Ascii.eqb c gt_char) eqn:E2;
    [cbn; rewrite prefix_empty; exact IH|].
  destruct (Ascii.eqb c amp_char) eqn:E3;
    [cbn; rewrite prefix_empty; exact IH|].
  destruct (Ascii.eqb c dq_char) eqn:E4;
    [cbn; rewrite prefix_empty; exact IH|].
  cbn [String.append html_safe]. now rewrite E1, E2, E3.
Qed.

(** Membership of a write in an explicit trace, event by event. *)
Ltac find_write H :=
  cbn [In] in H;
  repeat match type of H with
  | _ \/ _ => destruct H as [H|H]
  | False => contradiction
  | _ = _ => first [ discriminate H | inversion H; subst ]
  end.

Lemma browser_write_escaped (w : World) (u : Ui) (p c : string) :
  In (EvFileWrite p c) (trace (snd (runState (browserButton_clicked w) u))) ->
  In (EvFileWrite p c) (trace u) \/
  exists g,
    c = html_head ++ g ++ html_textarea_open
        ++ toHtmlEscaped (textEdit u) ++ html_tail.
Proof.
  unfold browserButton_clicked; run_cbn; split_ifs; intros H; find_write H;
    first [ left; assumption | right; eexists; reflexivity ].
Qed.

Lemma browser_write_happens (w : World) (u : Ui) :
  isEmpty (textEdit u) = false ->
  fileOpen w (trace u) (htmlPath_at w (trace u)) = true ->
  exists g,
    In (EvFileWrite (htmlPath_at w (trace u))
          (html_head ++ g ++ html_textarea_open
           ++ toHtmlEscaped (textEdit u) ++ html_tail))
       (trace (snd (runState (browserButton_clicked w) u))).
Proof.
  intros He Ho. unfold browserButton_clicked; run_cbn.
  rewrite He; run_cbn; rewrite Ho; run_cbn. eexists.
  split_ifs; cbn [In]; [right; left | right; right; left]; reflexivity.
Qed.

Lemma auto_write_escaped (w : World) (parser : QCommandLineParser)
    (user : list UserAction) (p c : string) :
  isSet parser webBrowserOption = true ->
  recognized w parser = true ->
  In (EvFileWrite p c) (trace (snd (run w parser user))) ->
  exists g,
    c = html_head ++ g ++ html_textarea_open
        ++ toHtmlEscaped (recognized_text w parser) ++ html_tail.
Proof.
  intros Hweb Hrec. unfold recognized in Hrec.
  apply andb_true_iff in Hrec as [Hc Hrec]. apply Z.eqb_eq in Hc.
  revert Hrec. unfold recognized_text.
  enter_main w. rewrite Hc, Hweb, Z.eqb_refl. run_cbn.
  destruct (isSet parser disable_qr) eqn:Ed; run_cbn.
  - ocr_cases w (value parser langOption); try discriminate; intros _;
      split_ifs; intros H; find_write H; eexists; reflexivity.
  - qr_cases w.
    + intros _; split_ifs; intros H; find_write H; eexists; reflexivity.
    + ocr_cases w (value parser langOption); try discriminate; intros _;
        split_ifs; intros H; find_write H; eexists; reflexivity.
    + ocr_cases w (value parser langOption); try discriminate; intros _;
        split_ifs; intros H; find_write H; eexists; reflexivity.
Qed.

Lemma auto_write_happens (w : World) (parser : QCommandLineParser)
    (user : list UserAction) :
  isSet parser webBrowserOption = true ->
  recognized w parser = true ->
  (forall h p, fileOpen w h p = true) ->
  exists p g,
    In (EvFileWrite p
          (html_head ++ g ++ html_textarea_open
           ++ toHtmlEscaped (recognized_text w parser) ++ html_tail))
       (trace (snd (run w parser user))).
Proof.
  intros Hweb Hrec Ho. unfold recognized in Hrec.
  apply andb_true_iff in Hrec as [Hc Hrec]. apply Z.eqb_eq in Hc.
  revert Hrec. unfold recognized_text.
  enter_main w. rewrite Hc, Hweb, Z.eqb_refl. run_cbn.
  destruct (isSet parser disable_qr) eqn:Ed; run_cbn.
  - ocr_cases w (value parser langOption); try discriminate; intros _;
      rewrite Ho; run_cbn; do 2 eexists; cbn [In]; right; left; reflexivity.
  - qr_cases w.
    + intros _; rewrite Ho; run_cbn; do 2 eexists; cbn [In];
        right; left; reflexivity.
    + ocr_cases w (value parser langOption); try discriminate; intros _;
        rewrite Ho; run_cbn; do 2 eexists; cbn [In]; right; left; reflexivity.
    + ocr_cases w (value parser langOption); try discriminate; intros _;
        rewrite Ho; run_cbn; do 2 eexists; cbn [In]; right; left; reflexivity.
Qed.

Lemma textarea_tags :
  (exists before,
     html_textarea_open
       = before ++ "<textarea id=" ++ dq ++ "content" ++ dq
         ++ " class=" ++ dq ++ "content" ++ dq ++ ">") /\
  (exists after, html_tail = "</textarea>" ++ after).
Proof.
  split.
  - exists ("</p>" ++ nl ++ "        "). reflexivity.
  - eexists. reflexivity.
Qed.

(** C5: each of the three HTML exports (the browser button and the two
    automatic exports of [main]) writes the page template with
    [toHtmlEscaped] of the current text right between the opening
    textarea tag and [</textarea>]: the text area's contents for the
    button, the text of the recognition outcome for the automatic
    exports.  The escaped string has no literal [<] or [>], its every
    [&] opens an entity, and each [<], [>] and [&] of the text stands
    in it as [&lt;], [&gt;] and [&amp;]. *)
Theorem html_export_escapes_text :
  (forall t, html_safe (toHtmlEscaped t) = true) /\
  (forall before after,
     toHtmlEscaped (before ++ String lt_char after)
       = toHtmlEscaped before ++ "&lt;" ++ toHtmlEscaped after /\
     toHtmlEscaped (before ++ String gt_char after)
       = toHtmlEscaped before ++ "&gt;" ++ toHtmlEscaped after /\
     toHtmlEscaped (before ++ String amp_char after)
       = toHtmlEscaped before ++ "&amp;" ++ toHtmlEscaped after) /\
  (forall w u p c,
     In (EvFileWrite p c) (trace (snd (runState (browserButton_clicked w) u))) ->
     In (EvFileWrite p c) (trace u) \/
     exists g,
       c = html_head ++ g ++ html_textarea_open
           ++ toHtmlEscaped (textEdit u) ++ html_tail) /\
  (forall w u,
     isEmpty (textEdit u) = false ->
     fileOpen w (trace u) (htmlPath_at w (trace u)) = true ->
     exists g,
       In (EvFileWrite (htmlPath_at w (trace u))
             (html_head ++ g ++ html_textarea_open
              ++ toHtmlEscaped (textEdit u) ++ html_tail))
          (trace (snd (runState (browserButton_clicked w) u)))) /\
  (forall w parser user p c,
     isSet parser webBrowserOption = true ->
     recognized w parser = true ->
     In (EvFileWrite p c) (trace (snd (run w parser user))) ->
     exists g,
       c = html_head ++ g ++ html_textarea_open
           ++ toHtmlEscaped (recognized_text w parser) ++ html_tail) /\
  (forall w parser user,
     isSet parser webBrowserOption = true ->
     recognized w parser = true ->
     (forall h p, fileOpen w h p = true) ->
     exists p g,
       In (EvFileWrite p
             (html_head ++ g ++ html_textarea_open
              ++ toHtmlEscaped (recognized_text w parser) ++ html_tail))
          (trace (snd (run w parser user)))) /\
  (exists before,
     html_textarea_open
       = before ++ "<textarea id=" ++ dq ++ "content" ++ dq
         ++ " class=" ++ dq ++ "content" ++ dq ++ ">") /\
  (exists after, html_tail = "</textarea>" ++ after).
Proof.
  split; [exact toHtmlEscaped_safe|].
  split; [intros before after; rewrite !toHtmlEscaped_app; repeat split|].
  split; [exact browser_write_escaped|].
  split; [exact browser_write_happens|].
  split; [exact auto_write_escaped|].
  split; [exact auto_write_happens | exact textarea_tags].
Qed.

Lemma html_export_witness :
  isSet [("web", EmptyString)] webBrowserOption = true /\
  recognized world_text [("web", EmptyString)] = true /\
  recognized_text world_text [("web", EmptyString)] = "3 > 2 && 1 < 2" /\
  In (EvFileWrite "/tmp/ocr_result_20240102_030405.html"
        (html_head ++ "2024-01-02 03:04:05" ++ html_textarea_open
         ++ "3 &gt; 2 &amp;&amp; 1 &lt; 2" ++ html_tail))
     (trace (snd (run world_text [("web", EmptyString)] []))) /\
  exists g,
    html_head ++ "2024-01-02 03:04:05" ++ html_textarea_open
    ++ "3 &gt; 2 &amp;&amp; 1 &lt; 2" ++ html_tail
      = html_head ++ g ++ html_textarea_open
        ++ toHtmlEscaped (recognized_text world_text [("web", EmptyString)])
        ++ html_tail.
Proof.
  assert (H1 : isSet [("web", EmptyString)] webBrowserOption = true) by reflexivity.
  assert (H2 : recognized world_text [("web", EmptyString)] = true) by reflexivity.
  assert (H3 : In (EvFileWrite "/tmp/ocr_result_20240102_030405.html"
                     (html_head ++ "2024-01-02 03:04:05" ++ html_textarea_open
                      ++ "3 &gt; 2 &amp;&amp; 1 &lt; 2" ++ html_tail))
                  (trace (snd (run world_text [("web", EmptyString)] []))))
    by (vm_compute; right; left; reflexivity).
  split; [exact H1|]. split; [exact H2|]. split; [reflexivity|].
  split; [exact H3|].
  exact (proj1 (proj2 (proj2 (proj2 (proj2 html_export_escapes_text))))
           world_text [("web", EmptyString)] [] _ _ H1 H2 H3).
Defined.

(** ** Buttons on an empty text area *)

(** C6: with an empty text area, the copy and the save-text handlers
    change the status label and nothing else: the trace is the one
    they started from, so no clipboard write, no file dialog and no
    file write happened. *)
Theorem empty_text_copy_save_noop (w : World) (u : Ui) :
  textEdit u = EmptyString ->
  runState (copyButton_clicked w) u
    = (tt, {| windowTitle := windowTitle u; textEdit := textEdit u;
              label := "No text to copy"; visible := visible u;
              trace := trace u |}) /\
  runState (saveButton_clicked w) u
    = (tt, {| windowTitle := windowTitle u; textEdit := textEdit u;
              label := "No text to save"; visible := visible u;
              trace := trace u |}).
Proof.
  intros H. unfold copyButton_clicked, saveButton_clicked; run_cbn.
  rewrite H; split; run_cbn; rewrite H; reflexivity.
Qed.

Lemma empty_text_witness :
  textEdit (ui_with EmptyString) = EmptyString /\
  runState (copyButton_clicked world_text) (ui_with EmptyString)
    = (tt, {| windowTitle := "Spectacle Screenshot OCR - Language: eng";
              textEdit := EmptyString; label := "No text to copy";
              visible := true; trace := [EvAppExec; EvWindowShow] |}) /\
  runState (saveButton_clicked world_text) (ui_with EmptyString)
    = (tt, {| windowTitle := "Spectacle Screenshot OCR - Language: eng";
              textEdit := EmptyString; label := "No text to save";
              visible := true; trace := [EvAppExec; EvWindowShow] |}).
Proof.
  assert (H : textEdit (ui_with EmptyString) = EmptyString) by reflexivity.
  split; [exact H|].
  exact (empty_text_copy_save_noop world_text (ui_with EmptyString) H).
Defined.

(** C10: the save-image handler opens the save dialog on every click,
    and when the dialog returns a path it copies the screenshot file
    to it; the text area plays no part: with any other contents, set
    by the program or typed by the user, the handler leaves the same
    trace and the same status. *)
Theorem save_image_ignores_text_area (w : World) (u : Ui) :
  let suggested :=
    homeDir w ++ "/Screenshot_" ++ currentDateTime w (trace u) "yyyyMMdd_hhmmss" in
  let dialog :=
    EvGetSaveFileName "Save Screenshot" suggested
      "Image Files (*.png);;All Files (*)" in
  let chosen :=
    getSaveFileName w (trace u) "Save Screenshot" suggested
      "Image Files (*.png);;All Files (*)" in
  let u' := snd (runState (saveImageButton_clicked w) u) in
  (exists added, trace u' = (added ++ dialog :: trace u)%list) /\
  (isEmpty chosen = false ->
   In (EvFileCopy (tempPath w) chosen) (trace u') /\
   (fileCopy w (dialog :: trace u) (tempPath w) chosen = true ->
    label u' = "Screenshot saved successfully")) /\
  (forall contents,
     trace (snd (runState (textEdit_setText w contents ;; saveImageButton_clicked w) u))
       = trace u' /\
     label (snd (runState (textEdit_setText w contents ;; saveImageButton_clicked w) u))
       = label u') /\
  (forall contents,
     trace (snd (runState (textEdit_userInput contents ;; saveImageButton_clicked w) u))
       = trace u' /\
     label (snd (runState (textEdit_userInput contents ;; saveImageButton_clicked w) u))
       = label u').
Proof.
  unfold saveImageButton_clicked; run_cbn.
  split; [|split; [|split]].
  - split_ifs; [eexists [_] | eexists [_; _] | exists []]; reflexivity.
  - intros Hchosen; rewrite Hchosen; run_cbn. split.
    + split_ifs; cbn [In]; auto.
    + intros Hcopy; rewrite Hcopy; reflexivity.
  - intros contents; split_ifs; split; reflexivity.
  - intros contents; split_ifs; split; reflexivity.
Qed.

Lemma save_image_witness :
  In (EvFileCopy (tempPath world_text) "/home/user/out.png")
     (trace (snd (runState (saveImageButton_clicked world_text)
                    (ui_with EmptyString)))) /\
  label (snd (runState (saveImageButton_clicked world_text) (ui_with EmptyString)))
    = "Screenshot saved successfully".
Proof.
  assert (H : isEmpty "/home/user/out.png" = false) by reflexivity.
  split.
  - exact (proj1 (proj1 (proj2 (save_image_ignores_text_area world_text
                                  (ui_with EmptyString))) H)).
  - exact (proj2 (proj1 (proj2 (save_image_ignores_text_area world_text
                                  (ui_with EmptyString))) H) eq_refl).
Defined.

(** ** Failure messages of the QR detector *)

(** C8, as the code has it: a failed detection carries one of two
    fixed messages, one when the image file could not be loaded and
    another when the image was loaded but held no valid code. *)
Theorem qr_failure_messages (w : World) (imagePath : string) (u : Ui) :
  success (fst (runState (detectQrCode w imagePath) u)) = false ->
  (loadImage w imagePath = None /\
   errorMessage (fst (runState (detectQrCode w imagePath) u))
     = "Failed to load image for QR detection") \/
  ((exists image, loadImage w imagePath = Some image) /\
   errorMessage (fst (runState (detectQrCode w imagePath) u))
     = "Failed to detect valid QR code").
Proof.
  unfold detectQrCode; run_cbn.
  destruct (loadImage w imagePath) as [image|]; run_cbn.
  - match goal with
    | |- context [ReadBarcode w ?v ?o] => destruct (ReadBarcode w v o)
    end; run_cbn; [discriminate|].
    intros _; right; split; [exists image|]; reflexivity.
  - intros _; left; split; reflexivity.
Qed.

Lemma qr_failure_messages_witness :
  success (fst (runState (detectQrCode world_text (tempPath world_text)) ui_init))
    = false /\
  errorMessage (fst (runState (detectQrCode world_text (tempPath world_text)) ui_init))
    = "Failed to detect valid QR code".
Proof.
  assert (H : success (fst (runState (detectQrCode world_text (tempPath world_text))
                              ui_init)) = false) by reflexivity.
  split; [exact H|].
  destruct (qr_failure_messages world_text (tempPath world_text) ui_init H)
    as [[Hload _]|[_ Hmsg]]; [discriminate Hload | exact Hmsg].
Defined.

(** C8, as stated, fails: an unreadable image file and a readable image
    without a code both make the detector fail, with different
    messages, so no single message covers every failure. *)
Lemma qr_failure_message_not_single :
  success (qr_result world_no_image) = false /\
  success (qr_result world_text) = false /\
  errorMessage (qr_result world_no_image) = "Failed to load image for QR detection" /\
  errorMessage (qr_result world_text) = "Failed to detect valid QR code" /\
  ~ (exists message, forall w imagePath u,
        success (fst (runState (detectQrCode w imagePath) u)) = false ->
        errorMessage (fst (runState (detectQrCode w imagePath) u)) = message).
Proof.
  repeat split.
  intros [message H].
  pose proof (H world_no_image (tempPath world_no_image) ui_init eq_refl) as H1.
  pose proof (H world_text (tempPath world_text) ui_init eq_refl) as H2.
  cbn in H1, H2. rewrite <- H2 in H1. discriminate H1.
Qed.

(** ** File-write failures *)

(** The interactive exports report a failed write: status label and a
    blocking alert, and nothing is written. *)
Lemma save_text_failure_alerts (w : World) (u : Ui) :
  let dialog :=
    EvGetSaveFileName "Save OCR Text" (homeDir w)
      "Text Files (*.txt);;All Files (*)" in
  let fileName :=
    getSaveFileName w (trace u) "Save OCR Text" (homeDir w)
      "Text Files (*.txt);;All Files (*)" in
  isEmpty (textEdit u) = false ->
  isEmpty fileName = false ->
  fileOpen w (dialog :: trace u) fileName = false ->
  label (snd (runState (saveButton_clicked w) u)) = "Failed to save file" /\
  trace (snd (runState (saveButton_clicked w) u))
    = EvMessageBox Critical "Error" "Failed to save the file"
      :: EvFileOpen fileName :: dialog :: trace u.
Proof.
  intros dialog fileName Ht Hn Ho; subst dialog fileName.
  unfold saveButton_clicked; run_cbn.
  rewrite Ht; run_cbn; rewrite Hn; run_cbn; rewrite Ho; run_cbn.
  split; reflexivity.
Qed.

Lemma save_image_failure_alerts (w : World) (u : Ui) :
  let suggested :=
    homeDir w ++ "/Screenshot_" ++ currentDateTime w (trace u) "yyyyMMdd_hhmmss" in
  let dialog :=
    EvGetSaveFileName "Save Screenshot" suggested
      "Image Files (*.png);;All Files (*)" in
  let chosen :=
    getSaveFileName w (trace u) "Save Screenshot" suggested
      "Image Files (*.png);;All Files (*)" in
  isEmpty chosen = false ->
  fileCopy w (dialog :: trace u) (tempPath w) chosen = false ->
  label (snd (runState (saveImageButton_clicked w) u)) = "Failed to save screenshot" /\
  trace (snd (runState (saveImageButton_clicked w) u))
    = EvMessageBox Critical "Error" "Failed to save the screenshot file"
      :: EvFileCopy (tempPath w) chosen :: dialog :: trace u.
Proof.
  intros suggested dialog chosen Hn Hc; subst suggested dialog chosen.
  unfold saveImageButton_clicked; run_cbn.
  rewrite Hn; run_cbn; rewrite Hc; run_cbn.
  split; reflexivity.
Qed.

Lemma browser_failure_alerts (w : World) (u : Ui) :
  isEmpty (textEdit u) = false ->
  fileOpen w (trace u) (htmlPath_at w (trace u)) = false ->
  label (snd (runState (browserButton_clicked w) u)) = "Failed to create HTML file" /\
  trace (snd (runState (browserButton_clicked w) u))
    = EvMessageBox Critical "Error" "Failed to create temporary HTML file"
      :: EvFileOpen (htmlPath_at w (trace u)) :: trace u.
Proof.
  intros Ht Ho. unfold browserButton_clicked; run_cbn.
  rewrite Ht; run_cbn; rewrite Ho; run_cbn.
  split; reflexivity.
Qed.

(** C9, where the code departs from it: in the automatic export, when
    the HTML file cannot be opened for writing, [main] raises no alert,
    leaves the success message in the status label, writes nothing and
    returns 0. *)
Theorem auto_export_write_failure_is_silent (w : World)
    (parser : QCommandLineParser) (user : list UserAction) :
  isSet parser webBrowserOption = true ->
  recognized w parser = true ->
  (forall h p, fileOpen w h p = false) ->
  fst (run w parser user) = 0%Z /\
  alerts (trace (snd (run w parser user))) = [] /\
  filter is_write (trace (snd (run w parser user))) = [] /\
  (label (snd (run w parser user)) = "QR code detected and decoded successfully"
   \/ label (snd (run w parser user)) = "Text extracted successfully.").
Proof.
  intros Hweb Hrec Ho. unfold recognized in Hrec.
  apply andb_true_iff in Hrec as [Hc Hrec]. apply Z.eqb_eq in Hc.
  revert Hrec. enter_main w. rewrite Hc, Hweb, Z.eqb_refl. run_cbn.
  destruct (isSet parser disable_qr) eqn:Ed; run_cbn.
  - ocr_cases w (value parser langOption); try discriminate; intros _;
      rewrite Ho; run_cbn; auto.
  - qr_cases w;
      [ intros _
      | ocr_cases w (value parser langOption); try discriminate; intros _
      | ocr_cases w (value parser langOption); try discriminate; intros _ ];
      rewrite Ho; run_cbn; auto.
Qed.

Lemma auto_export_write_failure_witness :
  isSet [("web", EmptyString)] webBrowserOption = true /\
  recognized world_qr_readonly [("web", EmptyString)] = true /\
  (forall h p, fileOpen world_qr_readonly h p = false) /\
  run world_qr_readonly [("web", EmptyString)] []
    = (0%Z,
       {| windowTitle := "Spectacle Screenshot OCR - Language: eng";
          textEdit := "https://example.org/?a=1&b=2";
          label := "QR code detected and decoded successfully";
          visible := false;
          trace :=
            [EvFileOpen "/tmp/ocr_result_20240102_030405.html";
             EvReadBarcode
               {| iv_data := [0; 0; 0; 255]%Z; iv_width := 1; iv_height := 1;
                  iv_format := ARGB; iv_rowStride := 4 |}
               {| formats := QRCode; tryHarder := true; tryRotate := true |};
             EvImageLoad "/tmp/screenshot.png";
             EvExecute "spectacle" ["-b"; "-r"; "-n"; "-o"; "/tmp/screenshot.png"]] |}) /\
  fst (run world_qr_readonly [("web", EmptyString)] []) = 0%Z /\
  alerts (trace (snd (run world_qr_readonly [("web", EmptyString)] []))) = [] /\
  filter is_write (trace (snd (run world_qr_readonly [("web", EmptyString)] []))) = [].
Proof.
  assert (H1 : isSet [("web", EmptyString)] webBrowserOption = true) by reflexivity.
  assert (H2 : recognized world_qr_readonly [("web", EmptyString)] = true)
    by reflexivity.
  assert (H3 : forall h p, fileOpen world_qr_readonly h p = false)
    by (intros h p; reflexivity).
  split; [exact H1|]. split; [exact H2|]. split; [exact H3|].
  split; [vm_compute; reflexivity|].
  destruct (auto_export_write_failure_is_silent world_qr_readonly
              [("web", EmptyString)] [] H1 H2 H3) as (R1 & R2 & R3 & _).
  split; [exact R1|]. split; [exact R2 | exact R3].
Defined.

(** * Further properties of the code *)

(** ** Lemmas on traces across the event loop *)

Lemma gui_extends_executions (tr tr' : Trace) :
  gui_extends tr tr' -> executions tr' = executions tr.
Proof.
  induction 1 as [|e tr' He _ IH]; [reflexivity|].
  destruct e; try discriminate He; exact IH.
Qed.

Lemma gui_extends_filter (f : Event -> bool)
    (Hf : forall e, gui_event e = true -> f e = false) (tr tr' : Trace) :
  gui_extends tr tr' -> filter f tr' = filter f tr.
Proof.
  induction 1 as [|e tr' He _ IH]; [reflexivity|].
  cbn [filter]; rewrite (Hf e He); exact IH.
Qed.

Lemma gui_extends_in (tr tr' : Trace) (e : Event) :
  gui_extends tr tr' -> In e tr -> In e tr'.
Proof. induction 1; intros; [assumption | right; auto]. Qed.

Lemma app_exec_result (w : World) (user : list UserAction) (u : Ui) :
  fst (runState (app_exec w user) u)
    = eventLoopExit w (trace (snd (runState (app_exec w user) u))).
Proof.
  destruct (app_exec_run w user u) as (u' & E & _ & _).
  rewrite E; reflexivity.
Qed.

Lemma app_exec_title (w : World) (user : list UserAction) (u : Ui) :
  windowTitle (snd (runState (app_exec w user) u)) = windowTitle u.
Proof.
  unfold app_exec; cbn -[event_loop].
  match goal with
  | |- context [runState (event_loop w user) ?u0] =>
      destruct (event_loop_ok w user u0) as (_ & _ & H);
      destruct (runState (event_loop w user) u0) as [[] u1]
  end.
  exact H.
Qed.

(** Case analysis on every branch of a run of [main]. *)
Ltac main_cases w parser :=
  enter_main w;
  destruct (Z.eqb (capture_exit w) 0) eqn:Ecapture; run_cbn;
  [ destruct (isSet parser disable_qr) eqn:Edisable; run_cbn;
    [ ocr_cases w (value parser langOption)
    | qr_cases w;
      [ | ocr_cases w (value parser langOption)
        | ocr_cases w (value parser langOption) ] ];
    destruct (isSet parser webBrowserOption) eqn:Eweb; run_cbn
  | ].

(** Move a statement on the trace across the event loop. *)
Ltac across_loop w user lemma :=
  match goal with
  | |- context [runState (app_exec w user) ?u] =>
      rewrite (lemma _ _ (app_exec_trace w user u))
  end.

(** ** How often the external tools run *)

(** X1: every run starts spectacle exactly once, with the arguments
    [-b -r -n -o] and the screenshot path in the temporary directory,
    whatever the flags, the outcome and the user's clicks. *)
Theorem spectacle_runs_once (w : World) (parser : QCommandLineParser)
    (user : list UserAction) :
  executions (trace (snd (run w parser user)))
    = [("spectacle", ["-b"; "-r"; "-n"; "-o"; tempDir w ++ "/screenshot.png"])].
Proof.
  main_cases w parser; split_ifs;
    try across_loop w user gui_extends_executions; reflexivity.
Qed.

(** X2: when the capture fails or the [disable-qr] flag is given, the
    QR detector is never called: the run loads no image through Qt and
    hands nothing to ZXing. *)
Theorem qr_detector_skipped (w : World) (parser : QCommandLineParser)
    (user : list UserAction) :
  capture_exit w <> 0%Z \/ isSet parser disable_qr = true ->
  filter is_qr_event (trace (snd (run w parser user))) = [].
Proof.
  intros H.
  assert (Hgui : forall e, gui_event e = true -> is_qr_event e = false)
    by (intros e; destruct e; cbn; congruence).
  main_cases w parser; split_ifs;
    try (destruct H as [H|H];
         [ apply Z.eqb_eq in Ecapture; contradiction | discriminate H ]);
    try across_loop w user (gui_extends_filter is_qr_event Hgui);
    reflexivity.
Qed.

Lemma qr_detector_skipped_witness :
  (capture_exit world_qr <> 0%Z
   \/ isSet [("disable-qr", EmptyString)] disable_qr = true) /\
  filter is_qr_event
    (trace (snd (run world_qr [("disable-qr", EmptyString)] [ClickBrowser]))) = [].
Proof.
  assert (H : capture_exit world_qr <> 0%Z
              \/ isSet [("disable-qr", EmptyString)] disable_qr = true)
    by (right; reflexivity).
  split; [exact H|].
  exact (qr_detector_skipped world_qr [("disable-qr", EmptyString)]
           [ClickBrowser] H).
Defined.

(** X3: nothing is retried: in every run the QR detector loads the
    image at most once, the OCR engine is initialised at most once, and
    after a failed capture it is not initialised at all. *)
Theorem recognizers_run_at_most_once (w : World) (parser : QCommandLineParser)
    (user : list UserAction) :
  length (filter is_image_load (trace (snd (run w parser user)))) <= 1 /\
  length (ocr_invocations (trace (snd (run w parser user)))) <= 1 /\
  (capture_exit w <> 0%Z ->
   ocr_invocations (trace (snd (run w parser user))) = []).
Proof.
  assert (Hgui : forall e, gui_event e = true -> is_image_load e = false)
    by (intros e; destruct e; cbn; congruence).
  main_cases w parser; split_ifs;
    (split; [|split]);
    try across_loop w user (gui_extends_filter is_image_load Hgui);
    try across_loop w user gui_extends_ocr;
    try (intros Hne; apply Z.eqb_eq in Ecapture; contradiction);
    cbn; auto.
Qed.

(** ** What a run that shows the window returns and displays *)

(** X4: unless the export flag is set and recognition succeeded, the
    window is shown, the event loop runs, and [main] returns whatever
    the event loop returns. *)
Theorem window_run_returns_loop_exit (w : World) (parser : QCommandLineParser)
    (user : list UserAction) :
  isSet parser webBrowserOption = false \/ recognized w parser = false ->
  fst (run w parser user) = eventLoopExit w (trace (snd (run w parser user))) /\
  visible (snd (run w parser user)) = true /\
  In EvWindowShow (trace (snd (run w parser user))) /\
  In EvAppExec (trace (snd (run w parser user))).
Proof.
  intros H; revert H; unfold recognized.
  main_cases w parser; intros [H|H]; try discriminate H;
    (split; [apply app_exec_result|]);
    (split; [apply app_exec_visible|]);
    (split;
     [ eapply gui_extends_in; [apply app_exec_trace|]; cbn [trace In]; tauto
     | eapply gui_extends_in; [apply app_exec_trace|]; cbn [trace In]; tauto ]).
Qed.

Lemma window_run_witness :
  (isSet [("web", EmptyString)] webBrowserOption = false
   \/ recognized world_unreadable [("web", EmptyString)] = false) /\
  fst (run world_unreadable [("web", EmptyString)] [ClickCopy])
    = eventLoopExit world_unreadable
        (trace (snd (run world_unreadable [("web", EmptyString)] [ClickCopy]))) /\
  visible (snd (run world_unreadable [("web", EmptyString)] [ClickCopy])) = true.
Proof.
  assert (H : isSet [("web", EmptyString)] webBrowserOption = false
              \/ recognized world_unreadable [("web", EmptyString)] = false)
    by (right; reflexivity).
  split; [exact H|].
  destruct (window_run_returns_loop_exit world_unreadable
              [("web", EmptyString)] [ClickCopy] H) as (R1 & R2 & _).
  split; [exact R1 | exact R2].
Defined.



(** X6: when the OCR engine initialises but Leptonica cannot read the
    screenshot, the outcome is a failure with the message
    [Failed to load image]; the window is shown with an empty text area
    and that status, and nothing is exported before the event loop,
    export flag or not. *)
Theorem ocr_image_load_failure (w : World) (parser : QCommandLineParser)
    (user : list UserAction) :
  capture_exit w = 0%Z ->
  isSet parser disable_qr = true \/ success (qr_result w) = false ->
  tessInit w (value parser langOption) = 0%Z ->
  pixRead w (tempPath w) = None ->
  success (ocr_result w (value parser langOption)) = false /\
  errorMessage (ocr_result w (value parser langOption)) = "Failed to load image" /\
  exists u,
    run w parser user = runState (app_exec w user) u /\
    visible u = true /\
    textEdit u = EmptyString /\
    label u = "Failed to load image" /\
    filter gui_event (trace u) = [].
Proof.
  intros Hc Hq Hi Hp. apply Z.eqb_eq in Hc. apply Z.eqb_eq in Hi.
  assert (Hr : ocr_result w (value parser langOption) =
               {| text := EmptyString; success := false;
                  errorMessage := "Failed to load image"; isQrCode := false |}).
  { unfold ocr_result; run_cbn. rewrite Hi; run_cbn. rewrite Hp. reflexivity. }
  rewrite Hr; cbn [success errorMessage].
  split; [reflexivity|]. split; [reflexivity|].
  revert Hq. enter_main w. rewrite Hc; run_cbn.
  destruct (isSet parser disable_qr) eqn:Edisable; run_cbn.
  - intros _. rewrite Hi; run_cbn. rewrite Hp; run_cbn.
    eexists; split; [reflexivity|]; cbn; auto.
  - qr_cases w; intros [Hq|Hq]; try discriminate;
      rewrite Hi; run_cbn; rewrite Hp; run_cbn;
      (eexists; split; [reflexivity|]); cbn; auto.
Qed.

Lemma ocr_image_load_failure_witness :
  capture_exit world_unreadable = 0%Z /\
  (isSet [("web", EmptyString)] disable_qr = true
   \/ success (qr_result world_unreadable) = false) /\
  tessInit world_unreadable (value [("web", EmptyString)] langOption) = 0%Z /\
  pixRead world_unreadable (tempPath world_unreadable) = None /\
  exists u,
    run world_unreadable [("web", EmptyString)] []
      = runState (app_exec world_unreadable []) u /\
    visible u = true /\
    textEdit u = EmptyString /\
    label u = "Failed to load image" /\
    filter gui_event (trace u) = [].
Proof.
  assert (H1 : capture_exit world_unreadable = 0%Z) by reflexivity.
  assert (H2 : isSet [("web", EmptyString)] disable_qr = true
               \/ success (qr_result world_unreadable) = false)
    by (right; reflexivity).
  assert (H3 : tessInit world_unreadable (value [("web", EmptyString)] langOption)
               = 0%Z) by reflexivity.
  assert (H4 : pixRead world_unreadable (tempPath world_unreadable) = None)
    by reflexivity.
  split; [exact H1|]. split; [exact H2|]. split; [exact H3|]. split; [exact H4|].
  exact (proj2 (proj2 (ocr_image_load_failure world_unreadable
                         [("web", EmptyString)] [] H1 H2 H3 H4))).
Defined.


(** X8: the outcome records are consistent: the QR flag is set exactly
    on a decoded barcode and never by OCR; a failed outcome of either
    recognizer carries no text, and a successful one no error
    message. *)
Theorem outcome_fields_consistent (w : World) (imagePath language : string)
    (u : Ui) :
  let qr := fst (runState (detectQrCode w imagePath) u) in
  let ocr := fst (runState (extractText w imagePath language) u) in
  isQrCode qr = success qr /\
  isQrCode ocr = false /\
  (success qr = false -> text qr = EmptyString) /\
  (success ocr = false -> text ocr = EmptyString) /\
  (success qr = true -> errorMessage qr = EmptyString) /\
  (success ocr = true -> errorMessage ocr = EmptyString).
Proof.
  unfold detectQrCode, extractText; run_cbn.
  destruct (loadImage w imagePath) as [image|]; run_cbn;
    [ match goal with
      | |- context [ReadBarcode w ?v ?o] => destruct (ReadBarcode w v o)
      end; run_cbn | ];
    (destruct (Z.eqb (tessInit w language) 0); run_cbn;
     [ destruct (pixRead w imagePath); run_cbn | ]);
    repeat split; intros; congruence.
Qed.

(** ** The event loop *)

Lemma dispatch_text (w : World) (a : UserAction) (u : Ui) :
  textEdit (snd (runState (dispatch w a) u)) = last_edit [a] (textEdit u).
Proof. destruct a; run_cbn; split_ifs; reflexivity. Qed.

Lemma event_loop_text (w : World) (user : list UserAction) (u : Ui) :
  textEdit (snd (runState (event_loop w user) u)) = last_edit user (textEdit u).
Proof.
  revert u; induction user as [|a rest IH]; intros u; [reflexivity|].
  cbn -[dispatch].
  pose proof (dispatch_text w a u) as Ha.
  destruct (runState (dispatch w a) u) as [[] u1]; cbn [snd] in Ha.
  rewrite IH, Ha. destruct a; reflexivity.
Qed.

(** X9: no button changes the text area: after the event loop it holds
    the user's last edit, or what it held when the loop started if the
    user made none. *)
Theorem buttons_keep_text (w : World) (user : list UserAction) (u : Ui) :
  textEdit (snd (runState (app_exec w user) u)) = last_edit user (textEdit u).
Proof.
  unfold app_exec; cbn -[event_loop].
  match goal with
  | |- context [runState (event_loop w user) ?u0] =>
      pose proof (event_loop_text w user u0) as H;
      destruct (runState (event_loop w user) u0) as [[] u1]
  end.
  exact H.
Qed.

(** X10: the window title names the OCR language of the run and no
    handler changes it. *)
Theorem window_title_names_language (w : World) (parser : QCommandLineParser)
    (user : list UserAction) :
  windowTitle (snd (run w parser user))
    = "Spectacle Screenshot OCR - Language: " ++ value parser langOption.
Proof.
  main_cases w parser; split_ifs; try rewrite app_exec_title; reflexivity.
Qed.

(** ** What reaches the clipboard and the file system *)

Lemma isEmpty_append (a b : string) :
  isEmpty b = false -> isEmpty (a ++ b) = false.
Proof. destruct a; [trivial | reflexivity]. Qed.

Lemma htmlPath_nonempty (w : World) (h : Trace) :
  isEmpty (htmlPath_at w h) = false.
Proof. unfold htmlPath_at; apply isEmpty_append; reflexivity. Qed.

Lemma tempPath_nonempty (w : World) : isEmpty (tempPath w) = false.
Proof. unfold tempPath; apply isEmpty_append; reflexivity. Qed.

Lemma html_document_nonempty (generated body : string) :
  isEmpty (html_document generated body) = false.
Proof. reflexivity. Qed.

(** Case analysis that remembers which way each test went. *)
Ltac split_ifs_eqn :=
  repeat match goal with
  | |- context [if ?c then _ else _] => destruct c eqn:?; run_cbn
  end.

Ltac targets_ok :=
  cbn [forallb nonempty_target];
  rewrite ?htmlPath_nonempty, ?tempPath_nonempty, ?html_document_nonempty;
  repeat match goal with
  | H : negb _ = true |- _ => rewrite H
  | H : forallb nonempty_target _ = true |- _ => rewrite H
  end;
  reflexivity.

Lemma dispatch_targets (w : World) (a : UserAction) (u : Ui) :
  forallb nonempty_target (trace u) = true ->
  forallb nonempty_target (trace (snd (runState (dispatch w a) u))) = true.
Proof.
  intros H; destruct a; run_cbn; split_ifs_eqn; targets_ok.
Qed.

Lemma event_loop_targets (w : World) (user : list UserAction) (u : Ui) :
  forallb nonempty_target (trace u) = true ->
  forallb nonempty_target (trace (snd (runState (event_loop w user) u))) = true.
Proof.
  revert u; induction user as [|a rest IH]; intros u H; [exact H|].
  cbn -[dispatch].
  pose proof (dispatch_targets w a u H) as Ha.
  destruct (runState (dispatch w a) u) as [[] u1]; cbn [snd] in Ha.
  exact (IH u1 Ha).
Qed.

Lemma app_exec_targets (w : World) (user : list UserAction) (u : Ui) :
  forallb nonempty_target (trace u) = true ->
  forallb nonempty_target (trace (snd (runState (app_exec w user) u))) = true.
Proof.
  intros H. unfold app_exec; cbn -[event_loop].
  match goal with
  | |- context [runState (event_loop w user) ?u0] =>
      assert (H0 : forallb nonempty_target (trace u0) = true) by exact H;
      pose proof (event_loop_targets w user u0 H0) as H1;
      destruct (runState (event_loop w user) u0) as [[] u1]
  end.
  exact H1.
Qed.

(** X11: in no run is the clipboard set to an empty text, a file
    opened, written or copied at an empty path, an empty file written,
    or the browser sent to an empty path. *)
Theorem no_empty_targets (w : World) (parser : QCommandLineParser)
    (user : list UserAction) :
  forallb nonempty_target (trace (snd (run w parser user))) = true.
Proof.
  main_cases w parser; split_ifs_eqn;
    try apply app_exec_targets; targets_ok.
Qed.

(** X12: with text in the text area, the copy button puts exactly that
    text on the clipboard; the save button, given a path and a file
    that opens, writes exactly that text to it, unescaped, and raises no
    alert. *)
Theorem copy_and_save_pass_text_verbatim (w : World) (u : Ui) :
  let dialog :=
    EvGetSaveFileName "Save OCR Text" (homeDir w)
      "Text Files (*.txt);;All Files (*)" in
  let fileName :=
    getSaveFileName w (trace u) "Save OCR Text" (homeDir w)
      "Text Files (*.txt);;All Files (*)" in
  isEmpty (textEdit u) = false ->
  runState (copyButton_clicked w) u
    = (tt, {| windowTitle := windowTitle u; textEdit := textEdit u;
              label := "Text copied to clipboard"; visible := visible u;
              trace := EvClipboardSetText (textEdit u) :: trace u |}) /\
  (isEmpty fileName = false ->
   fileOpen w (dialog :: trace u) fileName = true ->
   runState (saveButton_clicked w) u
     = (tt, {| windowTitle := windowTitle u; textEdit := textEdit u;
               label := "Text saved to file"; visible := visible u;
               trace := EvFileWrite fileName (textEdit u)
                        :: EvFileOpen fileName :: dialog :: trace u |})).
Proof.
  intros dialog fileName Ht; subst dialog fileName.
  unfold copyButton_clicked, saveButton_clicked; run_cbn.
  rewrite Ht; run_cbn. split; [reflexivity|].
  intros Hn Ho. rewrite Hn; run_cbn. rewrite Ho; reflexivity.
Qed.

Lemma copy_and_save_witness :
  isEmpty (textEdit (ui_with "a < b")) = false /\
  runState (copyButton_clicked world_qr) (ui_with "a < b")
    = (tt, {| windowTitle := "Spectacle Screenshot OCR - Language: eng";
              textEdit := "a < b";
              label := "Text copied to clipboard"; visible := true;
              trace := [EvClipboardSetText "a < b"; EvAppExec; EvWindowShow] |}) /\
  runState (saveButton_clicked world_qr) (ui_with "a < b")
    = (tt, {| windowTitle := "Spectacle Screenshot OCR - Language: eng";
              textEdit := "a < b";
              label := "Text saved to file"; visible := true;
              trace := [EvFileWrite "/home/user/out.txt" "a < b";
                        EvFileOpen "/home/user/out.txt";
                        EvGetSaveFileName "Save OCR Text" "/home/user"
                          "Text Files (*.txt);;All Files (*)";
                        EvAppExec; EvWindowShow] |}).
Proof.
  assert (H : isEmpty (textEdit (ui_with "a < b")) = false) by reflexivity.
  split; [exact H|].
  split.
  - exact (proj1 (copy_and_save_pass_text_verbatim world_qr (ui_with "a < b") H)).
  - exact (proj2 (copy_and_save_pass_text_verbatim world_qr (ui_with "a < b") H)
             eq_refl eq_refl).
Defined.

(** X13: cancelling a save dialog (it returns an empty path) changes
    nothing but the record of the dialog itself: no file is opened or
    copied, no alert is raised, and the status label keeps its text.
    This holds for the save-text button when there is text, and for the
    save-image button always. *)
Theorem cancelled_dialog_changes_nothing (w : World) (u : Ui) :
  (isEmpty (textEdit u) = false ->
   getSaveFileName w (trace u) "Save OCR Text" (homeDir w)
     "Text Files (*.txt);;All Files (*)" = EmptyString ->
   runState (saveButton_clicked w) u
     = (tt, {| windowTitle := windowTitle u; textEdit := textEdit u;
               label := label u; visible := visible u;
               trace := EvGetSaveFileName "Save OCR Text" (homeDir w)
                          "Text Files (*.txt);;All Files (*)" :: trace u |})) /\
  (getSaveFileName w (trace u) "Save Screenshot"
     (homeDir w ++ "/Screenshot_" ++ currentDateTime w (trace u) "yyyyMMdd_hhmmss")
     "Image Files (*.png);;All Files (*)" = EmptyString ->
   runState (saveImageButton_clicked w) u
     = (tt, {| windowTitle := windowTitle u; textEdit := textEdit u;
               label := label u; visible := visible u;
               trace := EvGetSaveFileName "Save Screenshot"
                          (homeDir w ++ "/Screenshot_" ++
                           currentDateTime w (trace u) "yyyyMMdd_hhmmss")
                          "Image Files (*.png);;All Files (*)" :: trace u |})).
Proof.
  unfold saveButton_clicked, saveImageButton_clicked; run_cbn. split.
  - intros Ht Hn. rewrite Ht; run_cbn. rewrite Hn; reflexivity.
  - intros Hn. rewrite Hn; reflexivity.
Qed.

Lemma cancelled_dialog_witness :
  getSaveFileName world_blank (trace (ui_with "text")) "Save Screenshot"
    (homeDir world_blank ++ "/Screenshot_" ++
     currentDateTime world_blank (trace (ui_with "text")) "yyyyMMdd_hhmmss")
    "Image Files (*.png);;All Files (*)" = EmptyString /\
  runState (saveImageButton_clicked world_blank) (ui_with "text")
    = (tt, {| windowTitle := "Spectacle Screenshot OCR - Language: eng";
              textEdit := "text";
              label := "Text extracted successfully."; visible := true;
              trace := [EvGetSaveFileName "Save Screenshot"
                          "/home/user/Screenshot_20240102_030405"
                          "Image Files (*.png);;All Files (*)";
                        EvAppExec; EvWindowShow] |}).
Proof.
  assert (H : getSaveFileName world_blank (trace (ui_with "text")) "Save Screenshot"
                (homeDir world_blank ++ "/Screenshot_" ++
                 currentDateTime world_blank (trace (ui_with "text")) "yyyyMMdd_hhmmss")
                "Image Files (*.png);;All Files (*)" = EmptyString) by reflexivity.
  split; [exact H|].
  exact (proj2 (cancelled_dialog_changes_nothing world_blank (ui_with "text")) H).
Defined.

(** ** The browser button *)

(** X14: with an empty text area the browser button only sets the
    status to [No text to display]: no file is opened or written and
    the browser is not started. *)
Theorem browser_button_needs_text (w : World) (u : Ui) :
  textEdit u = EmptyString ->
  runState (browserButton_clicked w) u
    = (tt, {| windowTitle := windowTitle u; textEdit := textEdit u;
              label := "No text to display"; visible := visible u;
              trace := trace u |}).
Proof.
  intros H. unfold browserButton_clicked; run_cbn.
  rewrite H; run_cbn; rewrite H; reflexivity.
Qed.

Lemma browser_button_needs_text_witness :
  textEdit (ui_with EmptyString) = EmptyString /\
  runState (browserButton_clicked world_qr) (ui_with EmptyString)
    = (tt, {| windowTitle := "Spectacle Screenshot OCR - Language: eng";
              textEdit := EmptyString;
              label := "No text to display"; visible := true;
              trace := [EvAppExec; EvWindowShow] |}).
Proof.
  assert (H : textEdit (ui_with EmptyString) = EmptyString) by reflexivity.
  split; [exact H|].
  exact (browser_button_needs_text world_qr (ui_with EmptyString) H).
Defined.

(** X15: when the browser button has written its HTML file, it sends
    the browser to that same file; if the browser cannot be started the
    user gets a warning (not an error) alert and the status
    [Failed to open web browser], and the written file stays. *)
Theorem browser_button_opens_written_file (w : World) (u : Ui) :
  let path := htmlPath_at w (trace u) in
  let document :=
    html_document
      (currentDateTime w (EvFileOpen path :: trace u) "yyyy-MM-dd hh:mm:ss")
      (toHtmlEscaped (textEdit u)) in
  let written := EvFileWrite path document :: EvFileOpen path :: trace u in
  isEmpty (textEdit u) = false ->
  fileOpen w (trace u) path = true ->
  (openUrl w written path = true ->
   label (snd (runState (browserButton_clicked w) u))
     = "OCR results opened in web browser" /\
   trace (snd (runState (browserButton_clicked w) u)) = EvOpenUrl path :: written) /\
  (openUrl w written path = false ->
   label (snd (runState (browserButton_clicked w) u)) = "Failed to open web browser" /\
   trace (snd (runState (browserButton_clicked w) u))
     = EvMessageBox Warning "Warning" "Could not open default web browser"
       :: EvOpenUrl path :: written).
Proof.
  intros path document written Ht Ho; subst path document written.
  unfold browserButton_clicked; run_cbn.
  rewrite Ht; run_cbn. rewrite Ho; run_cbn.
  split; intros Hu; rewrite Hu; split; reflexivity.
Qed.

Lemma browser_button_opens_witness :
  isEmpty (textEdit (ui_with "x")) = false /\
  fileOpen world_blank (trace (ui_with "x"))
    (htmlPath_at world_blank (trace (ui_with "x"))) = true /\
  label (snd (runState (browserButton_clicked world_blank) (ui_with "x")))
    = "Failed to open web browser".
Proof.
  assert (H1 : isEmpty (textEdit (ui_with "x")) = false) by reflexivity.
  assert (H2 : fileOpen world_blank (trace (ui_with "x"))
                 (htmlPath_at world_blank (trace (ui_with "x"))) = true)
    by reflexivity.
  split; [exact H1|]. split; [exact H2|].
  exact (proj1 (proj2 (browser_button_opens_written_file world_blank
                         (ui_with "x") H1 H2) eq_refl)).
Defined.

(** ** The automatic export *)

(** X16: with the export flag set, recognition successful and the
    report file writable, the run ends by opening, writing and handing
    to the browser one and the same file under the temporary
    directory, with no other file, dialog or alert before it; the file
    holds the escaped text of the recognition outcome, and unlike the
    browser button this export does not ask whether there is any
    text. *)
Theorem auto_export_opens_written_file (w : World)
    (parser : QCommandLineParser) (user : list UserAction) :
  isSet parser webBrowserOption = true ->
  recognized w parser = true ->
  (forall h p, fileOpen w h p = true) ->
  exists rest generated,
    trace (snd (run w parser user))
      = EvOpenUrl (htmlPath_at w rest)
        :: EvFileWrite (htmlPath_at w rest)
             (html_head ++ generated ++ html_textarea_open
              ++ toHtmlEscaped (recognized_text w parser) ++ html_tail)
        :: EvFileOpen (htmlPath_at w rest) :: rest /\
    filter gui_event rest = [].
Proof.
  intros Hweb Hrec Ho; revert Hrec; unfold recognized, recognized_text.
  main_cases w parser; try discriminate; intros _;
    rewrite Ho; run_cbn; do 2 eexists; split; reflexivity.
Qed.

Lemma auto_export_opens_witness :
  isSet [("browser", EmptyString)] webBrowserOption = true /\
  recognized world_blank [("browser", EmptyString)] = true /\
  (forall h p, fileOpen world_blank h p = true) /\
  recognized_text world_blank [("browser", EmptyString)] = EmptyString /\
  exists rest generated,
    trace (snd (run world_blank [("browser", EmptyString)] []))
      = EvOpenUrl (htmlPath_at world_blank rest)
        :: EvFileWrite (htmlPath_at world_blank rest)
             (html_head ++ generated ++ html_textarea_open
              ++ toHtmlEscaped
                   (recognized_text world_blank [("browser", EmptyString)])
              ++ html_tail)
        :: EvFileOpen (htmlPath_at world_blank rest) :: rest /\
    filter gui_event rest = [].
Proof.
  assert (H1 : isSet [("browser", EmptyString)] webBrowserOption = true)
    by reflexivity.
  assert (H2 : recognized world_blank [("browser", EmptyString)] = true)
    by reflexivity.
  assert (H3 : forall h p, fileOpen world_blank h p = true)
    by (intros h p; reflexivity).
  split; [exact H1|]. split; [exact H2|]. split; [exact H3|].
  split; [reflexivity|].
  exact (auto_export_opens_written_file world_blank
           [("browser", EmptyString)] [] H1 H2 H3).
Defined.

(** ** More on the escaping *)

Lemma toHtmlEscaped_plain (t : string) :
  html_plain t = true -> toHtmlEscaped t = t.
Proof.
  induction t as [|c t IH]; [reflexivity|].
  cbn [html_plain toHtmlEscaped]; intros H.
  apply andb_true_iff in H as [Hc Ht].
  apply negb_true_iff in Hc.
  apply orb_false_iff in Hc as [Hc E4].
  apply orb_false_iff in Hc as [Hc E3].
  apply orb_false_iff in Hc as [E1 E2].
  unfold escape_char; rewrite E1, E2, E3, E4.
  cbn [String.append]. now rewrite (IH Ht).
Qed.

(** The first character of an escaped character: an ampersand for the
    four rewritten ones, the character itself otherwise. *)
Ltac classify c :=
  unfold escape_char;
  let E := fresh "E" in
  destruct (Ascii.eqb c lt_char) eqn:E;
  [ apply Ascii.eqb_eq in E; subst c
  | let E := fresh "E" in
    destruct (Ascii.eqb c gt_char) eqn:E;
    [ apply Ascii.eqb_eq in E; subst c
    | let E := fresh "E" in
      destruct (Ascii.eqb c amp_char) eqn:E;
      [ apply Ascii.eqb_eq in E; subst c
      | let E := fresh "E" in
        destruct (Ascii.eqb c dq_char) eqn:E;
        [ apply Ascii.eqb_eq in E; subst c | ] ] ] ].

Lemma toHtmlEscaped_injective (a b : string) :
  toHtmlEscaped a = toHtmlEscaped b -> a = b.
Proof.
  revert b; induction a as [|x a IH]; intros [|y b]; cbn [toHtmlEscaped].
  - reflexivity.
  - classify y; discriminate.
  - classify x; discriminate.
  - classify x; classify y; cbn [String.append]; intros H;
      injection H; intros; subst;
      try discriminate;
      try (f_equal; apply IH; assumption);
      try (exfalso;
           repeat match goal with
           | E : Ascii.eqb _ _ = false |- _ =>
               apply Ascii.eqb_neq in E
           end; congruence).
Qed.

(** X17: escaping loses nothing: two texts with the same escaped form
    are the same text, and a text without [<], [>], [&] and the double
    quote is written to the report unchanged. *)
Theorem escaping_is_lossless :
  (forall a b, toHtmlEscaped a = toHtmlEscaped b -> a = b) /\
  (forall t, html_plain t = true -> toHtmlEscaped t = t) /\
  (forall generated a b,
     html_document generated (toHtmlEscaped a)
       = html_document generated (toHtmlEscaped b) -> a = b).
Proof.
  split; [exact toHtmlEscaped_injective|].
  split; [exact toHtmlEscaped_plain|].
  intros generated a b H. apply toHtmlEscaped_injective.
  unfold html_document in H.
  assert (cancel : forall p x y : string, p ++ x = p ++ y -> x = y).
  { induction p as [|c p IHp]; cbn; intros x y E; [exact E|].
    injection E; auto. }
  assert (cancel_r : forall s x y : string, x ++ s = y ++ s -> x = y).
  { intros s x y E.
    assert (len : forall p q : string,
               String.length (p ++ q) = String.length p + String.length q).
    { induction p as [|c p IHp]; cbn; intros q; [reflexivity|].
      now rewrite IHp. }
    assert (L : String.length x = String.length y).
    { apply (f_equal String.length) in E. rewrite !len in E. lia. }
    revert y E L; induction x as [|c x IHx]; intros [|d y] E L;
      cbn in L; try discriminate; [reflexivity|].
    cbn in E. injection E as -> E. f_equal. apply IHx; [exact E | lia]. }
  apply cancel in H. apply cancel in H. apply cancel in H.
  apply cancel_r in H. exact H.
Qed.

Lemma escaping_witness :
  html_plain "plain text, no markup" = true /\
  toHtmlEscaped "plain text, no markup" = "plain text, no markup".
Proof.
  assert (H : html_plain "plain text, no markup" = true) by reflexivity.
  split; [exact H|].
  exact (proj1 (proj2 escaping_is_lossless) "plain text, no markup" H).
Defined.

(** ** Examples for the statements above *)

Lemma recognizers_witness :
  capture_exit world_no_spectacle <> 0%Z /\
  ocr_invocations
    (trace (snd (run world_no_spectacle [("web", EmptyString)] [ClickSave]))) = [].
Proof.
  assert (H : capture_exit world_no_spectacle <> 0%Z)
    by (vm_compute; discriminate).
  split; [exact H|].
  exact (proj2 (proj2 (recognizers_run_at_most_once world_no_spectacle
                         [("web", EmptyString)] [ClickSave])) H).
Defined.

Lemma outcome_fields_witness :
  success (fst (runState (detectQrCode world_no_image "/tmp/screenshot.png")
                  ui_init)) = false /\
  text (fst (runState (detectQrCode world_no_image "/tmp/screenshot.png")
               ui_init)) = EmptyString.
Proof.
  assert (H : success (fst (runState (detectQrCode world_no_image
                                        "/tmp/screenshot.png") ui_init)) = false)
    by reflexivity.
  split; [exact H|].
  exact (proj1 (proj2 (proj2 (outcome_fields_consistent world_no_image
                                "/tmp/screenshot.png" "eng" ui_init))) H).
Defined.
